(** * weather-data: the Open-Meteo retrieval and summary pipeline

    A shallow embedding of [src/weather_data.py] (and of the catalog of
    its sibling [src/test.py]): the request parameters, the call of the
    Open-Meteo client, the construction of the [weather_data] dictionary
    with its per-field rounding, the UTC to Moscow time conversion and the
    summary written to the logger.

    Python values are modelled as follows.
    - A [float] is a [pyfloat].  A finite double is a rational number and
      is given by it, exactly: [Finite q].  [round(x, 1)] is correctly
      rounded on that exact value; its result, written [Finite (k # 10)],
      stands for the double nearest to [k/10], the one that prints as this
      decimal.  The negative zero, the infinities and NaN are apart.
    - An [int] is a [Z].
    - An exception is a [signal]; [except Exception] intercepts the
      instances of [Exception] only.  The classes and messages given to
      the exceptions of the library are those of CPython 3.11 where they
      are simple to state; the program only logs the message.
    - The logger, the network client and the wall clock are effects: a
      computation threads a [world] holding the trace of events and the
      number of clock readings made so far.

    The sibling script [src/test.py] has the same request parameters and
    the same fourteen rounding expressions; it converts no time and its
    table of weather codes is shorter. *)

From Stdlib Require Import ZArith QArith Qabs Bool List Lia.
From Stdlib Require Import Strings.String Strings.Ascii Numbers.DecimalString.
From stdpp Require Import base strings gmap.

Import ListNotations.
Open Scope string_scope.
Open Scope list_scope.
Open Scope Z_scope.

(** ** Python values *)

Inductive pyfloat : Type :=
| Finite (q : Q)
| NegZero
| PosInf
| NegInf
| NaN.

Inductive pyval : Type :=
| PyFloat (f : pyfloat)
| PyInt (z : Z)
| PyNone.

(** What a raised object is: an instance of a class deriving from
    [Exception], or one deriving from [BaseException] only
    (KeyboardInterrupt, SystemExit, GeneratorExit). *)
Inductive signal : Type :=
| Exception (cls msg : string)
| BaseException (cls msg : string).

Definition result (A : Type) : Type := (signal + A)%type.

Definition ok {A} (a : A) : result A := inr a.
Definition raise {A} (cls msg : string) : result A := inl (Exception cls msg).

Definition rbind {A B} (r : result A) (k : A -> result B) : result B :=
  match r with
  | inl e => inl e
  | inr a => k a
  end.

(** ** The builtins [round] and [int] *)

(** Rounding of a rational to the nearest integer, ties to the even
    neighbour: what [float.__round__] computes on the exact value of the
    double. *)
Definition round_half_even (q : Q) : Z :=
  let n := Qnum q / Zpos (Qden q) in
  match (2 * (Qnum q mod Zpos (Qden q))) ?= Zpos (Qden q) with
  | Lt => n
  | Gt => n + 1
  | Eq => if Z.even n then n else n + 1
  end.

(** Truncation towards zero: [int(x)] on a float. *)
Definition truncate (q : Q) : Z := Z.quot (Qnum q) (Zpos (Qden q)).

(** [x.__round__(1)] on a float: the correctly rounded decimal with one
    digit after the point; a zero result keeps the sign of [x];
    infinities and NaN round to themselves. *)
Definition float_round1 (f : pyfloat) : pyfloat :=
  match f with
  | Finite q =>
      let k := round_half_even (q * (10 # 1)) in
      if (k =? 0) && (Qnum q <? 0) then NegZero else Finite (k # 10)
  | other => other
  end.

(** [round(x, 1)] *)
Definition round1 (v : pyval) : result pyval :=
  match v with
  | PyFloat f => ok (PyFloat (float_round1 f))
  | PyInt z => ok (PyInt z)
  | PyNone => raise "TypeError" "type NoneType doesn't define __round__ method"
  end.

(** [PyLong_FromDouble] *)
Definition float_to_int (how : Q -> Z) (f : pyfloat) : result Z :=
  match f with
  | Finite q => ok (how q)
  | NegZero => ok 0
  | PosInf | NegInf =>
      raise "OverflowError" "cannot convert float infinity to integer"
  | NaN => raise "ValueError" "cannot convert float NaN to integer"
  end.

(** [round(x)] *)
Definition round0 (v : pyval) : result Z :=
  match v with
  | PyFloat f => float_to_int round_half_even f
  | PyInt z => ok z
  | PyNone => raise "TypeError" "type NoneType doesn't define __round__ method"
  end.

(** [int(x)] *)
Definition int (v : pyval) : result Z :=
  match v with
  | PyFloat f => float_to_int truncate f
  | PyInt z => ok z
  | PyNone =>
      raise "TypeError"
        "int() argument must be a string, a bytes-like object or a real number, not 'NoneType'"
  end.

(** [str(n)] for an int. *)
Definition str_int (z : Z) : string := NilZero.string_of_int (Z.to_int z).

(** ** Strings *)

Definition chr (n : Z) : ascii := ascii_of_N (Z.to_N n).
Definition ord (c : ascii) : Z := Z.of_N (N_of_ascii c).

Definition digit_char (d : Z) : ascii := chr (48 + d).

Definition digit_of (c : ascii) : option Z :=
  let n := ord c in
  if (48 <=? n) && (n <=? 57) then Some (n - 48) else None.

(** [n] printed on [w] decimal digits, zero padded (the low [w] digits). *)
Fixpoint zfill (w : nat) (n : Z) : string :=
  match w with
  | O => ""
  | S w' => zfill w' (n / 10) +:+ String (digit_char (n mod 10)) ""
  end.

(** [c in s] for a one-character [c]. *)
Fixpoint contains (c : ascii) (s : string) : bool :=
  match s with
  | EmptyString => false
  | String c' s' => Ascii.eqb c c' || contains c s'
  end.

(** [s.replace(c, by)] for a one-character [c]: every occurrence. *)
Fixpoint replace (c : ascii) (by_ : string) (s : string) : string :=
  match s with
  | EmptyString => ""
  | String c' s' =>
      (if Ascii.eqb c c' then by_ else String c' "") +:+ replace c by_ s'
  end.

(** Exactly [n] decimal digits at the head of [s]: their value (on top of
    [acc]) and the rest. *)
Fixpoint take_digits (n : nat) (acc : Z) (s : string) : option (Z * string) :=
  match n with
  | O => Some (acc, s)
  | S n' =>
      match s with
      | String c s' =>
          match digit_of c with
          | Some d => take_digits n' (10 * acc + d) s'
          | None => None
          end
      | EmptyString => None
      end
  end.

(** ** Civil time: the part of [datetime] the program uses *)

(** A [datetime]: the civil fields and, for an aware one, the offset from
    UTC of its [tzinfo] in seconds. *)
Record datetime : Type := mkdatetime {
  year : Z; month : Z; day : Z;
  hour : Z; minute : Z; second : Z; microsecond : Z;
  utcoffset : option Z
}.

Definition MINYEAR : Z := 1.
Definition MAXYEAR : Z := 9999.

Definition is_leap (y : Z) : bool :=
  ((y mod 4 =? 0) && negb (y mod 100 =? 0)) || (y mod 400 =? 0).

Definition days_in_month (y m : Z) : Z :=
  if m =? 2 then (if is_leap y then 29 else 28)
  else if (m =? 4) || (m =? 6) || (m =? 9) || (m =? 11) then 30
  else 31.

(** Days from 1970-01-01 to the civil date, proleptic Gregorian. *)
Definition days_from_civil (y m d : Z) : Z :=
  let y' := if m <=? 2 then y - 1 else y in
  let era := y' / 400 in
  let yoe := y' - era * 400 in
  let doy := (153 * (if m <=? 2 then m + 9 else m - 3) + 2) / 5 + d - 1 in
  let doe := yoe * 365 + yoe / 4 - yoe / 100 + doy in
  era * 146097 + doe - 719468.

Definition civil_from_days (z : Z) : Z * Z * Z :=
  let z' := z + 719468 in
  let era := z' / 146097 in
  let doe := z' - era * 146097 in
  let yoe := (doe - doe / 1460 + doe / 36524 - doe / 146096) / 365 in
  let doy := doe - (365 * yoe + yoe / 4 - yoe / 100) in
  let mp := (5 * doy + 2) / 153 in
  let d := doy - (153 * mp + 2) / 5 + 1 in
  let m := if mp <? 10 then mp + 3 else mp - 9 in
  (yoe + era * 400 + (if m <=? 2 then 1 else 0), m, d).

(** Seconds from the epoch to the civil fields read as they stand. *)
Definition to_seconds (dt : datetime) : Z :=
  days_from_civil (year dt) (month dt) (day dt) * 86400
  + hour dt * 3600 + minute dt * 60 + second dt.

(** The datetime whose civil fields are [t] seconds after the epoch; the
    year must lie in [MINYEAR, MAXYEAR]. *)
Definition of_seconds (t us : Z) (off : option Z) : result datetime :=
  let '(y, m, d) := civil_from_days (t / 86400) in
  let r := t mod 86400 in
  if (MINYEAR <=? y) && (y <=? MAXYEAR) then
    ok (mkdatetime y m d (r / 3600) (r mod 3600 / 60) (r mod 60) us off)
  else raise "OverflowError" "date value out of range".

(** [datetime.fromtimestamp(t, timezone.utc)] for an integer [t]. *)
Definition fromtimestamp_utc (t : Z) : result datetime :=
  match of_seconds t 0 (Some 0) with
  | inr dt => ok dt
  | inl _ =>
      raise "ValueError"
        ("year " +:+ str_int (fst (fst (civil_from_days (t / 86400))))
         +:+ " is out of range")
  end.

(** [dt.astimezone(tz)]: [tz] gives the offset of the target zone at a UTC
    instant; a naive [dt] is read in the zone of the system, whose offset
    at a local civil time is [sys]. *)
Definition astimezone (sys tz : Z -> Z) (dt : datetime) : result datetime :=
  let off := match utcoffset dt with
             | Some o => o
             | None => sys (to_seconds dt)
             end in
  let utc := to_seconds dt - off in
  rbind (of_seconds utc (microsecond dt) (Some 0)) (fun _ =>
  of_seconds (utc + tz utc) (microsecond dt) (Some (tz utc))).

(** [dt.strftime('%Y-%m-%d %H:%M:%S')].  The C library formats the
    fields: [%Y] is the year as it is (glibc does not pad a year below
    1000), the others are on two digits. *)
Definition strftime (dt : datetime) : string :=
  str_int (year dt) +:+ "-" +:+ zfill 2 (month dt) +:+ "-" +:+ zfill 2 (day dt)
  +:+ " " +:+ zfill 2 (hour dt) +:+ ":" +:+ zfill 2 (minute dt)
  +:+ ":" +:+ zfill 2 (second dt).

Definition format_offset (off : Z) : string :=
  let a := Z.abs off in
  (if off <? 0 then "-" else "+") +:+ zfill 2 (a / 3600) +:+ ":"
  +:+ zfill 2 (a mod 3600 / 60)
  +:+ (if a mod 60 =? 0 then "" else ":" +:+ zfill 2 (a mod 60)).

(** [dt.isoformat()] *)
Definition isoformat (dt : datetime) : string :=
  zfill 4 (year dt) +:+ "-" +:+ zfill 2 (month dt) +:+ "-" +:+ zfill 2 (day dt)
  +:+ "T" +:+ zfill 2 (hour dt) +:+ ":" +:+ zfill 2 (minute dt)
  +:+ ":" +:+ zfill 2 (second dt)
  +:+ (if microsecond dt =? 0 then "" else "." +:+ zfill 6 (microsecond dt))
  +:+ match utcoffset dt with
      | Some off => format_offset off
      | None => ""
      end.

(** ** [datetime.fromisoformat]

    The extended format is modelled: [YYYY-MM-DD], then optionally one
    separator character and a time [HH[:MM[:SS[.f...]]]] followed by
    nothing, by [Z] or by a signed offset [HH[:MM[:SS]]].  The looser
    spellings that the library also reads (the colon-free basic format,
    week dates, a fraction of a second in the offset, stray characters
    before the offset) are not part of the model: they are rejected
    here. *)

(** The digits of a fraction of a second, to the end of the string: the
    first six count, the others are dropped. *)
Fixpoint frac_digits (k : nat) (acc : Z) (s : string) : option Z :=
  match s with
  | EmptyString => Some (acc * 10 ^ Z.of_nat k)
  | String c s' =>
      match digit_of c with
      | None => None
      | Some d =>
          match k with
          | O => frac_digits O acc s'
          | S k' => frac_digits k' (10 * acc + d) s'
          end
      end
  end.

Definition parse_hh_mm_ss_ff (s : string) : option (Z * Z * Z * Z) :=
  match take_digits 2 0 s with
  | None => None
  | Some (h, EmptyString) => Some (h, 0, 0, 0)
  | Some (h, String c1 s1) =>
      if negb (Ascii.eqb c1 ":") then None else
      match take_digits 2 0 s1 with
      | None => None
      | Some (m, EmptyString) => Some (h, m, 0, 0)
      | Some (m, String c2 s2) =>
          if negb (Ascii.eqb c2 ":") then None else
          match take_digits 2 0 s2 with
          | None => None
          | Some (sec, EmptyString) => Some (h, m, sec, 0)
          | Some (sec, String c3 s3) =>
              if Ascii.eqb c3 "." || Ascii.eqb c3 "," then
                match s3 with
                | EmptyString => None
                | _ => option_map (fun us => (h, m, sec, us)) (frac_digits 6 0 s3)
                end
              else None
          end
      end
  end.

(** The time string cut at the first of [Z], [+] and [-]. *)
Fixpoint split_tz (s : string) : string * option (ascii * string) :=
  match s with
  | EmptyString => ("", None)
  | String c s' =>
      if Ascii.eqb c "Z" || Ascii.eqb c "+" || Ascii.eqb c "-" then
        ("", Some (c, s'))
      else let '(t, z) := split_tz s' in (String c t, z)
  end.

(** The zone part: [None] when malformed, [Some None] when absent. *)
Definition parse_tz (z : option (ascii * string)) : option (option Z) :=
  match z with
  | None => Some None
  | Some (c, rest) =>
      if Ascii.eqb c "Z" then
        match rest with
        | EmptyString => Some (Some 0)
        | _ => None
        end
      else
        match parse_hh_mm_ss_ff rest with
        | Some (h, m, sec, 0) =>
            Some (Some ((if Ascii.eqb c "-" then -1 else 1)
                        * (h * 3600 + m * 60 + sec)))
        | _ => None
        end
  end.

Definition parse_date (s : string) : option (Z * Z * Z * string) :=
  match take_digits 4 0 s with
  | Some (y, String c1 s1) =>
      if negb (Ascii.eqb c1 "-") then None else
      match take_digits 2 0 s1 with
      | Some (m, String c2 s2) =>
          if negb (Ascii.eqb c2 "-") then None else
          match take_digits 2 0 s2 with
          | Some (d, rest) => Some (y, m, d, rest)
          | None => None
          end
      | _ => None
      end
  | _ => None
  end.

Definition parse_isoformat (s : string) : option datetime :=
  match parse_date s with
  | None => None
  | Some (y, m, d, EmptyString) => Some (mkdatetime y m d 0 0 0 0 None)
  | Some (y, m, d, String _ tstr) =>
      let '(t, z) := split_tz tstr in
      match parse_hh_mm_ss_ff t, parse_tz z with
      | Some (h, mi, sec, us), Some off => Some (mkdatetime y m d h mi sec us off)
      | _, _ => None
      end
  end.

(** The range checks of the [timezone] and [datetime] constructors, in
    the order in which [fromisoformat] calls them: the message of the
    first that fails. *)
Definition datetime_error (dt : datetime) : option string :=
  if match utcoffset dt with
     | Some off => negb ((-86400 <? off) && (off <? 86400))
     | None => false
     end
  then Some "offset must be a timedelta strictly between -timedelta(hours=24) and timedelta(hours=24)"
  else if negb ((MINYEAR <=? year dt) && (year dt <=? MAXYEAR))
  then Some ("year " +:+ str_int (year dt) +:+ " is out of range")
  else if negb ((1 <=? month dt) && (month dt <=? 12))
  then Some "month must be in 1..12"
  else if negb ((1 <=? day dt) && (day dt <=? days_in_month (year dt) (month dt)))
  then Some "day is out of range for month"
  else if negb (hour dt <? 24) then Some "hour must be in 0..23"
  else if negb (minute dt <? 60) then Some "minute must be in 0..59"
  else if negb (second dt <? 60) then Some "second must be in 0..59"
  else None.

Definition fromisoformat (s : string) : result datetime :=
  match parse_isoformat s with
  | Some dt =>
      match datetime_error dt with
      | None => ok dt
      | Some msg => raise "ValueError" msg
      end
  | None => raise "ValueError" ("Invalid isoformat string: '" +:+ s +:+ "'")
  end.

(** [pytz.UTC.localize(dt)] *)
Definition localize_utc (dt : datetime) : result datetime :=
  match utcoffset dt with
  | Some _ => raise "ValueError" "Not naive datetime (tzinfo is already set)"
  | None =>
      ok (mkdatetime (year dt) (month dt) (day dt) (hour dt) (minute dt)
            (second dt) (microsecond dt) (Some 0))
  end.

(** ** The data of the pipeline *)

(** The [params] dictionary of the request. *)
Module Params.
Record t : Type := mk {
  latitude : pyfloat;
  longitude : pyfloat;
  current : list string;
  hourly : list string;
  daily : list string;
  timezone : string;
  forecast_days : Z;
  past_days : Z
}.
End Params.

(** The response of the Open-Meteo client, as far as the program reads
    it: an elevation, a current block that may be absent, with its time
    (an integer number of seconds) and its slots.  The accessor
    [Variables(j)] does not check its index.  Within the slots present it
    gives the [j]-th slot.  Past them it decodes whatever bytes of the
    buffer lie there, and what [Variables(j).Value()] then yields - a
    number, or an exception of the decoder - depends on the buffer and is
    not specified: [past_end] stands for that outcome, whatever it is. *)
Record VariableWithValues : Type := { Value : pyval }.

Record VariablesWithTime : Type := {
  Time : Z;
  slots : list VariableWithValues;
  past_end : nat -> result pyval
}.

Record WeatherApiResponse : Type := {
  Elevation : pyfloat;
  Current : option VariablesWithTime;
  Hourly : option VariablesWithTime;
  Daily : option VariablesWithTime
}.

Module Coordinates.
Record t : Type := mk {
  latitude : pyfloat;
  longitude : pyfloat;
  elevation : pyfloat
}.
End Coordinates.

Module CurrentWeather.
Record t : Type := mk {
  time_utc : string;
  time_msk : string;
  temperature : pyval;
  humidity : Z;
  apparent_temperature : pyval;
  precipitation : pyval;
  rain : pyval;
  showers : pyval;
  snowfall : pyval;
  weather_code : Z;
  cloud_cover : Z;
  pressure_msl : Z;
  surface_pressure : Z;
  wind_speed : pyval;
  wind_direction : Z;
  wind_gusts : pyval
}.
End CurrentWeather.

Module Units.
Record t : Type := mk {
  temperature : string;
  precipitation : string;
  pressure : string;
  wind_speed : string
}.
End Units.

(** The [weather_data] dictionary. *)
Module WeatherData.
Record t : Type := mk {
  timestamp : string;
  timestamp_utc : string;
  coordinates : Coordinates.t;
  current : CurrentWeather.t;
  forecast_days : Z;
  units : Units.t
}.
End WeatherData.

(** ** Effects *)

Inductive level : Type := DEBUG | INFO | WARNING | ERROR | CRITICAL.

Inductive event : Type :=
| Log (lv : level) (msg : string)
| ApiCall (url : string) (params : Params.t).

Record world : Type := mkworld {
  trace : list event;
  ticks : nat
}.

(** A computation: it ends with a value or a raised signal, in a new
    world. *)
Definition M (A : Type) : Type := world -> result A * world.

Definition ret {A} (a : A) : M A := fun w => (ok a, w).

Definition bind {A B} (c : M A) (k : A -> M B) : M B :=
  fun w =>
    match c w with
    | (inl e, w') => (inl e, w')
    | (inr a, w') => k a w'
    end.

Definition lift {A} (r : result A) : M A := fun w => (r, w).

Notation "x <- c ;; k" := (bind c (fun x => k))
  (at level 100, c at next level, k at level 200, right associativity).
Notation "c ;; k" := (bind c (fun _ => k))
  (at level 100, k at level 200, right associativity).

Definition emit (e : event) : M unit :=
  fun w => (ok tt, mkworld (trace w ++ [e]) (ticks w)).

Definition log (lv : level) (msg : string) : M unit := emit (Log lv msg).

(** [try: body / except Exception as e: handler(str(e))] *)
Definition try_except {A} (body : M A) (handler : string -> M A) : M A :=
  fun w =>
    match body w with
    | (inl (Exception _ msg), w') => handler msg w'
    | other => other
    end.

(** [obj.name] on an object that may be [None]. *)
Definition attr {A} (name : string) (obj : option A) : result A :=
  match obj with
  | Some a => ok a
  | None =>
      raise "AttributeError"
        ("'NoneType' object has no attribute '" +:+ name +:+ "'")
  end.

(** The client: [client.weather_api(url, params=params)] returns the list
    of responses or raises. *)
Definition Client : Type := string -> Params.t -> result (list WeatherApiResponse).

Definition weather_api (client : Client) (url : string) (params : Params.t)
  : M (list WeatherApiResponse) :=
  emit (ApiCall url params) ;; lift (client url params).

(** The [weather_codes] table of [log_weather_summary]. *)
Definition weather_codes : gmap Z string :=
  list_to_map
    [(0, "☀️ Ясно");
     (1, "🌤️ Преимущественно ясно");
     (2, "⛅ Переменная облачность");
     (3, "☁️ Пасмурно");
     (45, "🌫️ Туман");
     (48, "🌫️ Изморозь");
     (51, "🌧️ Морось слабая");
     (53, "🌧️ Морось умеренная");
     (55, "🌧️ Морось сильная");
     (56, "🌧️❄️ Ледяная морось слабая");
     (57, "🌧️❄️ Ледяная морось сильная");
     (61, "🌧️ Дождь слабый");
     (63, "🌧️ Дождь умеренный");
     (65, "🌧️ Дождь сильный");
     (66, "🌧️🧊 Ледяной дождь слабый");
     (67, "🌧️🧊 Ледяной дождь сильный");
     (71, "🌨️ Снег слабый");
     (73, "🌨️ Снег умеренный");
     (75, "🌨️ Снег сильный");
     (77, "❄️ Снежные зерна");
     (80, "🌦️ Ливень слабый");
     (81, "🌦️ Ливень умеренный");
     (82, "⛈️ Ливень сильный");
     (85, "🌨️ Снегопад слабый");
     (86, "🌨️ Снегопад сильный");
     (95, "⛈️ Гроза");
     (96, "⛈️ Гроза с градом слабая");
     (99, "⛈️ Гроза с градом сильная")].

(** [weather_codes.get(code, f"Код погоды: {code}")] *)
Definition weather_description (codes : gmap Z string) (code : Z) : string :=
  default ("Код погоды: " +:+ str_int code) (codes !! code).

(** The table of the sibling script [test.py]. *)
Definition weather_codes_test : gmap Z string :=
  list_to_map
    [(0, "Ясно"); (1, "Преимущественно ясно"); (2, "Переменная облачность");
     (3, "Пасмурно"); (45, "Туман"); (48, "Изморозь");
     (51, "Морось слабая"); (53, "Морось умеренная"); (55, "Морось сильная");
     (61, "Дождь слабый"); (63, "Дождь умеренный"); (65, "Дождь сильный");
     (71, "Снег слабый"); (73, "Снег умеренный"); (75, "Снег сильный");
     (80, "Ливень слабый"); (81, "Ливень умеренный"); (82, "Ливень сильный");
     (95, "Гроза"); (96, "Гроза с градом слабая"); (99, "Гроза с градом сильная")].

(** ** The program *)

Section Program.

(** What the program takes from outside: [repr] of a float (as an
    f-string prints it), the offset of Europe/Moscow at a UTC instant
    (the timezone database), the offset of the zone of the system at a
    local civil time, and the successive readings of the wall clock in
    microseconds since the epoch. *)
Variable float_repr : pyfloat -> string.
Variable msk_utcoffset : Z -> Z.
Variable system_utcoffset : Z -> Z.
Variable clock : nat -> Z.

(** [str(v)] as an f-string prints a value. *)
Definition str (v : pyval) : string :=
  match v with
  | PyFloat f => float_repr f
  | PyInt z => str_int z
  | PyNone => "None"
  end.

(** [datetime.now(tz)] *)
Definition datetime_now (tz : Z -> Z) : M datetime :=
  fun w =>
    let t := clock (ticks w) in
    let utc := t / 1000000 in
    (of_seconds (utc + tz utc) (t mod 1000000) (Some (tz utc)),
     mkworld (trace w) (S (ticks w))).

Definition utc_tz : Z -> Z := fun _ => 0.

(** The [try] block of [convert_utc_to_msk_pytz]. *)
Definition convert_utc_to_msk_pytz_try (utc_datetime_str : string) : M string :=
  utc_dt <-
    (if contains "+" utc_datetime_str || contains "Z" utc_datetime_str then
       naive_dt <- lift (fromisoformat (replace "Z" "+00:00" utc_datetime_str)) ;;
       match utcoffset naive_dt with
       | None => lift (astimezone system_utcoffset utc_tz naive_dt)
       | Some _ => ret naive_dt
       end
     else
       naive_dt <- lift (fromisoformat utc_datetime_str) ;;
       lift (localize_utc naive_dt)) ;;
  msk_dt <- lift (astimezone system_utcoffset msk_utcoffset utc_dt) ;;
  ret (strftime msk_dt).

Definition convert_utc_to_msk_pytz (utc_datetime_str : string) : M string :=
  try_except
    (convert_utc_to_msk_pytz_try utc_datetime_str)
    (fun e =>
       log ERROR ("Ошибка конвертации времени с pytz: " +:+ e) ;;
       ret utc_datetime_str).

Definition get_current_msk_time : M string :=
  msk_time <- datetime_now msk_utcoffset ;;
  ret (strftime msk_time).

Definition url : string := "https://api.open-meteo.com/v1/forecast".

(** The [params] dictionary built at the head of [get_weather_data]. *)
Definition params (latitude longitude : pyfloat) (forecast_days : Z) : Params.t :=
  Params.mk latitude longitude
    ["temperature_2m"; "relative_humidity_2m"; "apparent_temperature";
     "precipitation"; "rain"; "showers"; "snowfall"; "weather_code";
     "cloud_cover"; "pressure_msl"; "surface_pressure"; "wind_speed_10m";
     "wind_direction_10m"; "wind_gusts_10m"]
    ["temperature_2m"; "relative_humidity_2m"; "precipitation";
     "weather_code"; "surface_pressure"; "wind_speed_10m"]
    ["weather_code"; "temperature_2m_max"; "temperature_2m_min";
     "apparent_temperature_max"; "apparent_temperature_min";
     "precipitation_sum"; "precipitation_hours"; "wind_speed_10m_max"]
    "auto" forecast_days 0.

(** [current.Variables(j).Value()] *)
Definition variable_value (current : VariablesWithTime) (j : nat) : result pyval :=
  match nth_error (slots current) j with
  | Some v => ok (Value v)
  | None => past_end current j
  end.

(** The ["current"] entry of the result: the fourteen slots in the
    order of the source. *)
Definition current_weather (utc_time_str msk_time_str : string)
    (current : VariablesWithTime) : result CurrentWeather.t :=
  let value := variable_value current in
  rbind (rbind (value 0%nat) round1) (fun temperature =>
  rbind (rbind (value 1%nat) round0) (fun humidity =>
  rbind (rbind (value 2%nat) round1) (fun apparent_temperature =>
  rbind (rbind (value 3%nat) round1) (fun precipitation =>
  rbind (rbind (value 4%nat) round1) (fun rain =>
  rbind (rbind (value 5%nat) round1) (fun showers =>
  rbind (rbind (value 6%nat) round1) (fun snowfall =>
  rbind (rbind (value 7%nat) int) (fun weather_code =>
  rbind (rbind (value 8%nat) round0) (fun cloud_cover =>
  rbind (rbind (value 9%nat) round0) (fun pressure_msl =>
  rbind (rbind (value 10%nat) round0) (fun surface_pressure =>
  rbind (rbind (value 11%nat) round1) (fun wind_speed =>
  rbind (rbind (value 12%nat) round0) (fun wind_direction =>
  rbind (rbind (value 13%nat) round1) (fun wind_gusts =>
  ok (CurrentWeather.mk utc_time_str msk_time_str temperature humidity
        apparent_temperature precipitation rain showers snowfall
        weather_code cloud_cover pressure_msl surface_pressure wind_speed
        wind_direction wind_gusts))))))))))))))).

Definition units : Units.t := Units.mk "°C" "mm" "hPa" "km/h".

(** The [try] block of [get_weather_data].  ([hourly] and [daily] are
    read and not used.) *)
Definition get_weather_data_try (client : Client) (latitude longitude : pyfloat)
    (forecast_days : Z) : M (option WeatherData.t) :=
  let params := params latitude longitude forecast_days in
  log INFO ("Запрос погоды для координат: " +:+ float_repr latitude
            +:+ ", " +:+ float_repr longitude) ;;
  responses <- weather_api client url params ;;
  match responses with
  | [] =>
      log ERROR "Получен пустой ответ от API" ;;
      ret None
  | response :: _ =>
      let current := Current response in
      let hourly := Hourly response in
      let daily := Daily response in
      t <- lift (rbind (attr "Time" current) (fun c => ok (Time c))) ;;
      utc_time <- lift (fromtimestamp_utc t) ;;
      let utc_time_str := isoformat utc_time in
      msk_time_str <- convert_utc_to_msk_pytz utc_time_str ;;
      current_msk_time <- get_current_msk_time ;;
      now_utc <- datetime_now utc_tz ;;
      cur <- lift (rbind (attr "Variables" current)
                     (current_weather utc_time_str msk_time_str)) ;;
      let weather_data :=
        WeatherData.mk current_msk_time (isoformat now_utc)
          (Coordinates.mk latitude longitude (Elevation response))
          cur forecast_days units in
      log INFO "Данные погоды успешно получены." ;;
      ret (Some weather_data)
  end.

(** The handler logs the message of the exception; the traceback that
    [exc_info=True] adds to the line is not modelled. *)
Definition get_weather_data (client : Client) (latitude longitude : pyfloat)
    (forecast_days : Z) : M (option WeatherData.t) :=
  try_except
    (get_weather_data_try client latitude longitude forecast_days)
    (fun e =>
       log ERROR ("Ошибка при получении данных погоды: " +:+ e) ;;
       ret None).

Definition log_weather_summary (weather_data : option WeatherData.t) : M unit :=
  match weather_data with
  | None => ret tt
  | Some weather_data =>
      let current := WeatherData.current weather_data in
      let weather_description :=
        weather_description weather_codes (CurrentWeather.weather_code current) in
      log INFO "СВОДКА ПОГОДЫ" ;;
      log INFO ("Время наблюдения (МСК): " +:+ CurrentWeather.time_msk current) ;;
      log INFO ("Время запроса (МСК):    " +:+ WeatherData.timestamp weather_data) ;;
      log INFO ("Температура:            "
                +:+ str (CurrentWeather.temperature current)
                +:+ "°C (ощущается как "
                +:+ str (CurrentWeather.apparent_temperature current) +:+ "°C)") ;;
      log INFO ("Влажность:              "
                +:+ str_int (CurrentWeather.humidity current) +:+ "%") ;;
      log INFO ("Погода:                 " +:+ weather_description) ;;
      log INFO ("Ветер:                  "
                +:+ str (CurrentWeather.wind_speed current)
                +:+ " км/ч, порывы до "
                +:+ str (CurrentWeather.wind_gusts current) +:+ " км/ч") ;;
      log INFO ("Давление:               "
                +:+ str_int (CurrentWeather.surface_pressure current) +:+ " hPa") ;;
      log INFO ("Осадки:                 "
                +:+ str (CurrentWeather.precipitation current) +:+ " мм/ч")
  end.

End Program.

(** ** Vocabulary of the properties *)

(** The run ends by raising an instance of the class [cls]. *)
Definition fails_with {A} (cls : string) (r : result A * world) : Prop :=
  exists msg, fst r = inl (Exception cls msg).

Definition network_called (w : world) : Prop :=
  exists u p, In (ApiCall u p) (trace w).

(** The run is refused with [cls] before the client is called. *)
Definition rejected_before_network {A} (cls : string) (r : result A * world) : Prop :=
  fails_with cls r /\ ~ network_called (snd r).

(** The instants the [datetime] type can hold, in seconds from the epoch:
    0001-01-01T00:00:00 to 9999-12-31T23:59:59. *)
Definition MIN_TIMESTAMP : Z := -62135596800.
Definition MAX_TIMESTAMP : Z := 253402300799.

Definition representable (t : Z) : Prop := MIN_TIMESTAMP <= t <= MAX_TIMESTAMP.

(** The number a float stands for. *)
Definition float_value (f : pyfloat) : option Q :=
  match f with
  | Finite q => Some q
  | NegZero => Some (0 # 1)%Q
  | _ => None
  end.

(** [v] is [q] rounded to one decimal: a float worth [k/10], the nearest
    such number to [q]. *)
Definition rounded_to_1_decimal (q : Q) (v : pyval) : Prop :=
  exists f x k, v = PyFloat f /\ float_value f = Some x
    /\ (x == k # 10)%Q /\ (Qabs (q - (k # 10)) <= 1 # 20)%Q.

(** [n] is [q] rounded to an integer: a nearest one. *)
Definition rounded_to_integer (q : Q) (n : Z) : Prop :=
  (Qabs (q - inject_Z n) <= 1 # 2)%Q.

(** [n] is [q] with its fraction dropped, towards zero. *)
Definition truncated_to_integer (q : Q) (n : Z) : Prop :=
  ((0 <= q -> inject_Z n <= q /\ q < inject_Z n + 1)
   /\ (q <= 0 -> inject_Z n - 1 < q /\ q <= inject_Z n))%Q.

(** A slot holding the finite float [q]. *)
Definition float_slot (q : Q) : VariableWithValues :=
  {| Value := PyFloat (Finite q) |}.

(** The current block built from fourteen finite floats, rounded field
    by field. *)
Definition rounded_current (u m : string) (qs : list Q) : CurrentWeather.t :=
  let q j := nth j qs (0 # 1)%Q in
  let r1 j := PyFloat (float_round1 (Finite (q j))) in
  let r0 j := round_half_even (q j) in
  CurrentWeather.mk u m (r1 0%nat) (r0 1%nat) (r1 2%nat) (r1 3%nat) (r1 4%nat)
    (r1 5%nat) (r1 6%nat) (truncate (q 7%nat)) (r0 8%nat) (r0 9%nat)
    (r0 10%nat) (r1 11%nat) (r0 12%nat) (r1 13%nat).

(** A response that does not hold fourteen numbers: no current block,
    fewer than fourteen slots, or a slot among the fourteen that holds no
    number. *)
Definition malformed (response : WeatherApiResponse) : Prop :=
  match Current response with
  | None => True
  | Some b =>
      (length (slots b) < 14)%nat
      \/ exists j, (j < 14)%nat
                   /\ nth_error (slots b) j = Some {| Value := PyNone |}
  end.

(** The result is a raised instance of [Exception]. *)
Definition raises_exception {A} (r : result A) : Prop :=
  exists cls msg, r = inl (Exception cls msg).

(** A block on which a read is sure to fail: a slot among the fourteen
    holds no number, or there are fewer than fourteen slots and the
    decoder raises an exception on the first read past them. *)
Definition unreadable_block (b : VariablesWithTime) : Prop :=
  (exists j, (j < 14)%nat /\ nth_error (slots b) j = Some {| Value := PyNone |})
  \/ ((length (slots b) < 14)%nat
      /\ raises_exception (past_end b (length (slots b)))).

Definition unreadable (response : WeatherApiResponse) : Prop :=
  match Current response with
  | None => True
  | Some b => unreadable_block b
  end.

(** The reads of the slots before the [n]-th give values, and the [n]-th
    gives no number or raises an exception. *)
Definition fails_at (b : VariablesWithTime) (n : nat) : Prop :=
  (n < 14)%nat
  /\ (forall i, (i < n)%nat -> exists v, variable_value b i = ok v)
  /\ (variable_value b n = ok PyNone \/ raises_exception (variable_value b n)).

(** The codes of the catalog, as the specification lists them. *)
Definition known_codes : list Z :=
  [0; 1; 2; 3; 45; 48; 51; 53; 55; 56; 57; 61; 63; 65; 66; 67; 71; 73; 75;
   77; 80; 81; 82; 85; 86; 95; 96; 99].

(** [p in s] for strings. *)
Definition infix_of (p s : string) : bool :=
  match index 0 p s with
  | Some _ => true
  | None => false
  end.

(** The lines of a summary, in the words of the specification: a header,
    the observation time, the time of the request, temperature with
    apparent temperature, humidity, the description of the weather code,
    wind speed with gusts, pressure and precipitation. *)
Definition summary_lines (float_repr : pyfloat -> string) (wd : WeatherData.t)
  : list string :=
  let c := WeatherData.current wd in
  [ "СВОДКА ПОГОДЫ";
    "Время наблюдения (МСК): " +:+ CurrentWeather.time_msk c;
    "Время запроса (МСК):    " +:+ WeatherData.timestamp wd;
    "Температура:            " +:+ str float_repr (CurrentWeather.temperature c)
      +:+ "°C (ощущается как "
      +:+ str float_repr (CurrentWeather.apparent_temperature c) +:+ "°C)";
    "Влажность:              " +:+ str_int (CurrentWeather.humidity c) +:+ "%";
    "Погода:                 "
      +:+ weather_description weather_codes (CurrentWeather.weather_code c);
    "Ветер:                  " +:+ str float_repr (CurrentWeather.wind_speed c)
      +:+ " км/ч, порывы до "
      +:+ str float_repr (CurrentWeather.wind_gusts c) +:+ " км/ч";
    "Давление:               "
      +:+ str_int (CurrentWeather.surface_pressure c) +:+ " hPa";
    "Осадки:                 "
      +:+ str float_repr (CurrentWeather.precipitation c) +:+ " мм/ч" ].

(** The line the converter logs when it fails. *)
Definition conversion_error (msg : string) : event :=
  Log ERROR ("Ошибка конвертации времени с pytz: " +:+ msg).

(** The result is a value or an instance of [Exception]: nothing that
    [except Exception] lets through. *)
Definition exception_only {A} (r : result A) : Prop :=
  match r with
  | inl (BaseException _ _) => False
  | _ => True
  end.

Definition contained {A} (c : M A) : Prop :=
  forall w, exception_only (fst (c w)).

(** The computation only adds events to the trace. *)
Definition grows {A} (c : M A) : Prop :=
  forall w, exists l, trace (snd (c w)) = trace w ++ l.

(** An environment to run the program in: floats printed as fractions, a
    fixed offset of three hours for Moscow, a system in UTC and a clock
    started at 2024-01-15T12:00:00.123456Z. *)
Module Demo.
Definition float_repr (f : pyfloat) : string :=
  match f with
  | Finite q => str_int (Qnum q) +:+ "/" +:+ str_int (Zpos (Qden q))
  | NegZero => "-0.0"
  | PosInf => "inf"
  | NegInf => "-inf"
  | NaN => "nan"
  end.
Definition msk_utcoffset (t : Z) : Z := 10800.
Definition system_utcoffset (t : Z) : Z := 0.
Definition clock (n : nat) : Z := 1705320000123456 + Z.of_nat n.
Definition w0 : world := mkworld [] 0.

(** A block whose decoder raises on a read past the slots, as the one of
    FlatBuffers does when the bytes it meets make no offset. *)
Definition block (values : list pyval) : VariablesWithTime :=
  {| Time := 1705320000;
     slots := map Build_VariableWithValues values;
     past_end := fun _ =>
       raise "TypeError" "bad number 4294967338 for type uint32" |}.

(** A block whose decoder finds a number past the slots. *)
Definition stray_block (values : list pyval) (stray : pyfloat) : VariablesWithTime :=
  {| Time := 1705320000;
     slots := map Build_VariableWithValues values;
     past_end := fun _ => ok (PyFloat stray) |}.

Definition response (values : list pyval) : WeatherApiResponse :=
  {| Elevation := Finite (200 # 1); Current := Some (block values);
     Hourly := None; Daily := None |}.

Definition floats (qs : list Q) : list pyval :=
  map (fun q => PyFloat (Finite q)) qs.

Definition readings : list Q :=
  [18456 # 1000; 634 # 10; 17 # 1; -4 # 100; 0 # 1; 0 # 1; 0 # 1;
   619 # 10; 625 # 10; 10135 # 10; 9995 # 10; 25 # 100; 3595 # 10;
   635 # 10]%Q.

Definition client (values : list pyval) : Client :=
  fun _ _ => ok [response values].

Definition stray_response (values : list pyval) (stray : pyfloat) : WeatherApiResponse :=
  {| Elevation := Finite (200 # 1); Current := Some (stray_block values stray);
     Hourly := None; Daily := None |}.

Definition stray_client (values : list pyval) (stray : pyfloat) : Client :=
  fun _ _ => ok [stray_response values stray].

Definition run (c : Client) (forecast_days : Z) : result (option WeatherData.t) * world :=
  get_weather_data float_repr msk_utcoffset system_utcoffset clock c
    (Finite (5036 # 100)) (Finite (3636 # 100)) forecast_days w0.
End Demo.

(** * Properties *)

(** ** Rounding *)

Lemma round_half_even_bounds (q : Q) :
  2 * Z.abs (Qnum q - round_half_even q * Zpos (Qden q)) <= Zpos (Qden q).
Proof.
  destruct q as [a b]; unfold round_half_even; cbn [Qnum Qden].
  pose proof (Z.div_mod a (Zpos b) ltac:(lia)) as E.
  pose proof (Z.mod_pos_bound a (Zpos b) ltac:(lia)) as B.
  set (n := a / Zpos b) in *. set (r := a mod Zpos b) in *.
  destruct (Z.compare_spec (2 * r) (Zpos b)); [destruct (Z.even n)|..]; nia.
Qed.

Lemma round_half_even_near (q : Q) : rounded_to_integer q (round_half_even q).
Proof.
  pose proof (round_half_even_bounds q) as H.
  destruct q as [a b]. revert H. generalize (round_half_even (a # b)). intros n H.
  cbn [Qnum Qden] in H.
  unfold rounded_to_integer, Qle, Qabs, Qminus, Qplus, Qopp, inject_Z.
  cbn [Qnum Qden]. rewrite Pos.mul_1_r. lia.
Qed.

Lemma round_half_even_tie (q : Q) (n : Z) :
  (q == inject_Z n + (1 # 2))%Q ->
  round_half_even q = if Z.even n then n else n + 1.
Proof.
  destruct q as [a b]. unfold Qeq, Qplus, inject_Z, round_half_even.
  cbn [Qnum Qden]. intros H.
  assert (E : 2 * a = (2 * n + 1) * Zpos b) by lia. clear H.
  pose proof (Z.div_mod a (Zpos b) ltac:(lia)) as D.
  pose proof (Z.mod_pos_bound a (Zpos b) ltac:(lia)) as B.
  cbv zeta.
  remember (a / Zpos b) as k. remember (a mod Zpos b) as r.
  assert (K : k = n) by nia. subst k.
  assert (2 * r = Zpos b) by nia.
  destruct (Z.compare_spec (2 * r) (Zpos b)); try lia.
  rewrite K. reflexivity.
Qed.

Lemma truncate_spec (q : Q) : truncated_to_integer q (truncate q).
Proof.
  destruct q as [a b].
  unfold truncated_to_integer, truncate, Qle, Qlt, Qminus, Qplus, Qopp, inject_Z.
  cbn [Qnum Qden Pos.mul].
  pose proof (Z.quot_rem a (Zpos b) ltac:(lia)) as D.
  split; intros H.
  - assert (0 <= a) by lia.
    pose proof (Z.rem_bound_pos a (Zpos b) ltac:(lia) ltac:(lia)).
    nia.
  - assert (a <= 0) by lia.
    pose proof (Z.rem_nonpos a (Zpos b) ltac:(lia) ltac:(lia)).
    assert (- Zpos b < Z.rem a (Zpos b)).
    { pose proof (Z.rem_opp_l a (Zpos b) ltac:(lia)).
      pose proof (Z.rem_bound_pos (-a) (Zpos b) ltac:(lia) ltac:(lia)). lia. }
    nia.
Qed.

Lemma float_round1_spec (q : Q) :
  rounded_to_1_decimal q (PyFloat (float_round1 (Finite q))).
Proof.
  pose proof (round_half_even_bounds (q * (10 # 1))) as B.
  unfold rounded_to_1_decimal, float_round1.
  set (k := round_half_even (q * (10 # 1))) in *.
  assert (N : (Qabs (q - (k # 10)) <= 1 # 20)%Q).
  { destruct q as [a b]. cbn [Qnum Qden Qmult] in B.
    unfold Qle, Qabs, Qminus, Qplus, Qopp. cbn [Qnum Qden]. lia. }
  destruct ((k =? 0) && (Qnum q <? 0)) eqn:E.
  - apply andb_true_iff in E as [E _]. apply Z.eqb_eq in E.
    exists NegZero, (0 # 1)%Q, k. rewrite E in *. repeat split; try easy.
  - exists (Finite (k # 10)), (k # 10)%Q, k. repeat split; try easy.
Qed.

Example round1_18_456 :
  round1 (PyFloat (Finite (18456 # 1000))) = ok (PyFloat (Finite (185 # 10))).
Proof. reflexivity. Qed.

Example round0_63_4 : round0 (PyFloat (Finite (634 # 10))) = ok 63.
Proof. reflexivity. Qed.

Example int_61_9 : int (PyFloat (Finite (619 # 10))) = ok 61.
Proof. reflexivity. Qed.

Example round0_61_9 : round0 (PyFloat (Finite (619 # 10))) = ok 62.
Proof. reflexivity. Qed.

Example round1_negative_zero :
  round1 (PyFloat (Finite (-4 # 100))) = ok (PyFloat NegZero).
Proof. reflexivity. Qed.

(** NaN goes through [round(x, 1)] but not through [round(x)] or
    [int(x)]. *)
Example round1_nan : round1 (PyFloat NaN) = ok (PyFloat NaN).
Proof. reflexivity. Qed.

Example round0_nan :
  round0 (PyFloat NaN) = raise "ValueError" "cannot convert float NaN to integer".
Proof. reflexivity. Qed.

(** ** Results and computations *)

Create HintDb pipeline.

Lemma exception_only_ok {A} (a : A) : exception_only (ok a).
Proof. exact I. Qed.

Lemma exception_only_raise {A} cls msg : exception_only (@raise A cls msg).
Proof. exact I. Qed.

Lemma exception_only_rbind {A B} (r : result A) (k : A -> result B) :
  exception_only r -> (forall a, exception_only (k a)) ->
  exception_only (rbind r k).
Proof. destruct r as [[]|]; cbn; auto. Qed.

#[local] Hint Resolve exception_only_ok exception_only_raise
  exception_only_rbind : pipeline.

Lemma exception_only_cases {A} (r : result A) :
  exception_only r ->
  (exists a, r = ok a) \/ (exists cls msg, r = inl (Exception cls msg)).
Proof. destruct r as [[]|]; cbn; intros H; [right|tauto|left]; eauto. Qed.

Lemma contained_ret {A} (a : A) : contained (ret a).
Proof. intros w. exact I. Qed.

Lemma contained_lift {A} (r : result A) : exception_only r -> contained (lift r).
Proof. intros H w. exact H. Qed.

Lemma contained_emit e : contained (emit e).
Proof. intros w. exact I. Qed.

Lemma contained_bind {A B} (c : M A) (k : A -> M B) :
  contained c -> (forall a, contained (k a)) -> contained (bind c k).
Proof.
  intros Hc Hk w. unfold bind. specialize (Hc w).
  destruct (c w) as [[[]|a] w']; cbn in *; auto. apply Hk.
Qed.

Lemma contained_try_except {A} (body : M A) (handler : string -> M A) :
  contained body -> (forall e, contained (handler e)) ->
  contained (try_except body handler).
Proof.
  intros Hb Hh w. unfold try_except. specialize (Hb w).
  destruct (body w) as [[[]|a] w']; cbn in *; auto. apply Hh.
Qed.

Lemma grows_ret {A} (a : A) : grows (ret a).
Proof. intros w. exists []. cbn. now rewrite app_nil_r. Qed.

Lemma grows_lift {A} (r : result A) : grows (lift r).
Proof. intros w. exists []. cbn. now rewrite app_nil_r. Qed.

Lemma grows_emit e : grows (emit e).
Proof. intros w. exists [e]. reflexivity. Qed.

Lemma grows_bind {A B} (c : M A) (k : A -> M B) :
  grows c -> (forall a, grows (k a)) -> grows (bind c k).
Proof.
  intros Hc Hk w. unfold bind. destruct (Hc w) as [l Hl].
  destruct (c w) as [[e|a] w']; cbn in *; eauto.
  destruct (Hk a w') as [l' Hl']. exists (l ++ l').
  rewrite Hl', Hl. now rewrite app_assoc.
Qed.

Lemma grows_try_except {A} (body : M A) (handler : string -> M A) :
  grows body -> (forall e, grows (handler e)) -> grows (try_except body handler).
Proof.
  intros Hb Hh w. unfold try_except. destruct (Hb w) as [l Hl].
  destruct (body w) as [[[cls msg|cls msg]|a] w']; cbn in *; eauto.
  destruct (Hh msg w') as [l' Hl']. exists (l ++ l').
  rewrite Hl', Hl. now rewrite app_assoc.
Qed.

#[local] Hint Resolve contained_ret contained_lift contained_emit
  contained_bind contained_try_except grows_ret grows_lift grows_emit
  grows_bind grows_try_except : pipeline.

(** A raised [Exception] reaches the handler, whose result is the result
    of the whole statement. *)
Lemma try_except_caught {A} (body : M A) (handler : string -> M A) w cls msg w' :
  body w = (inl (Exception cls msg), w') ->
  try_except body handler w = handler msg w'.
Proof. intros H. unfold try_except. now rewrite H. Qed.

Lemma try_except_passed {A} (body : M A) (handler : string -> M A) w a w' :
  body w = (ok a, w') -> try_except body handler w = (ok a, w').
Proof. intros H. unfold try_except. now rewrite H. Qed.

(** ** Civil time *)

Lemma civil_year_range (z : Z) :
  -719162 <= z <= 2932896 ->
  MINYEAR <= fst (fst (civil_from_days z)) <= MAXYEAR.
Proof.
  intros H. unfold civil_from_days, MINYEAR, MAXYEAR. cbn [fst].
  destruct ((5 * _ + 2) / 153 <? 10) eqn:E1;
  destruct (_ <=? 2) eqn:E2;
  rewrite ?Z.ltb_lt, ?Z.ltb_ge, ?Z.leb_le, ?Z.leb_gt in *;
  Z.div_mod_to_equations; lia.
Qed.

Lemma of_seconds_representable (t us : Z) (off : option Z) :
  representable t -> exists dt, of_seconds t us off = ok dt.
Proof.
  intros [Hlo Hhi]. unfold MIN_TIMESTAMP, MAX_TIMESTAMP in *.
  assert (D : -719162 <= t / 86400 <= 2932896)
    by (Z.div_mod_to_equations; lia).
  pose proof (civil_year_range _ D) as Y. unfold of_seconds.
  destruct (civil_from_days (t / 86400)) as [[y m] d]. cbn [fst] in Y.
  destruct Y as [Y1 Y2]. apply Z.leb_le in Y1, Y2. rewrite Y1, Y2. cbn. eauto.
Qed.

Lemma of_seconds_exception_only t us off : exception_only (of_seconds t us off).
Proof.
  unfold of_seconds. destruct (civil_from_days _) as [[y m] d].
  destruct (_ && _); exact I.
Qed.

Lemma fromtimestamp_utc_representable (t : Z) :
  representable t -> exists dt, fromtimestamp_utc t = ok dt.
Proof.
  intros H. unfold fromtimestamp_utc.
  destruct (of_seconds_representable t 0 (Some 0) H) as [dt ->]. eauto.
Qed.

Lemma fromtimestamp_utc_exception_only t : exception_only (fromtimestamp_utc t).
Proof. unfold fromtimestamp_utc. destruct (of_seconds _ _ _); exact I. Qed.

Lemma astimezone_exception_only sys tz dt : exception_only (astimezone sys tz dt).
Proof.
  unfold astimezone. apply exception_only_rbind; intros;
    apply of_seconds_exception_only.
Qed.

Lemma fromisoformat_exception_only s : exception_only (fromisoformat s).
Proof.
  unfold fromisoformat.
  destruct (parse_isoformat s); [destruct (datetime_error _)|]; exact I.
Qed.

Lemma localize_utc_exception_only dt : exception_only (localize_utc dt).
Proof. unfold localize_utc. destruct (utcoffset dt); exact I. Qed.

#[local] Hint Resolve of_seconds_exception_only fromtimestamp_utc_exception_only
  astimezone_exception_only fromisoformat_exception_only
  localize_utc_exception_only : pipeline.

Lemma round1_exception_only v : exception_only (round1 v).
Proof. destruct v; exact I. Qed.

Lemma float_to_int_exception_only how f : exception_only (float_to_int how f).
Proof. destruct f; exact I. Qed.

Lemma round0_exception_only v : exception_only (round0 v).
Proof. destruct v; try exact I. apply float_to_int_exception_only. Qed.

Lemma int_exception_only v : exception_only (int v).
Proof. destruct v; try exact I. apply float_to_int_exception_only. Qed.

Lemma attr_exception_only {A} name (obj : option A) : exception_only (attr name obj).
Proof. destruct obj; exact I. Qed.

#[local] Hint Resolve round1_exception_only round0_exception_only
  int_exception_only attr_exception_only : pipeline.

(** ** The time conversion *)

Ltac pure_result :=
  eexists; split; [| intros ?; reflexivity]; first [assumption | exact I].

Section Conversion.

Variable msk_utcoffset : Z -> Z.
Variable system_utcoffset : Z -> Z.

Let convert := convert_utc_to_msk_pytz msk_utcoffset system_utcoffset.
Let convert_try := convert_utc_to_msk_pytz_try msk_utcoffset system_utcoffset.

(** The [try] block reads and writes nothing of the world. *)
Lemma convert_try_pure (s : string) :
  exists r, exception_only r /\ forall w, convert_try s w = (r, w).
Proof.
  unfold convert_try, convert_utc_to_msk_pytz_try, bind, lift, ret.
  pose proof (astimezone_exception_only system_utcoffset msk_utcoffset) as T.
  assert (F := fromisoformat_exception_only).
  destruct (contains "+" s || contains "Z" s).
  - specialize (F (replace "Z" "+00:00" s)).
    destruct (fromisoformat _) as [e|dt]; [pure_result|].
    destruct (utcoffset dt) as [off|] eqn:O; cbv beta iota delta [ok].
    + specialize (T dt). destruct (astimezone _ _ dt); pure_result.
    + pose proof (astimezone_exception_only system_utcoffset utc_tz dt) as U.
      destruct (astimezone _ utc_tz dt) as [e|dt']; [pure_result|].
      specialize (T dt'). destruct (astimezone _ _ dt'); pure_result.
  - specialize (F s).
    destruct (fromisoformat _) as [e|dt]; [pure_result|].
    pose proof (localize_utc_exception_only dt) as L.
    destruct (localize_utc dt) as [e|dt']; [pure_result|].
    specialize (T dt'). destruct (astimezone _ _ dt'); pure_result.
Qed.

(** The converter always returns a string; the clock is not read and
    the trace gets at most one line. *)
Lemma convert_returns (s : string) (w : world) :
  exists r l, convert s w = (ok r, mkworld (trace w ++ l) (ticks w)).
Proof.
  destruct (convert_try_pure s) as [r [E H]].
  unfold convert, convert_utc_to_msk_pytz, try_except.
  fold convert_try. rewrite H.
  destruct r as [[cls msg|cls msg]|a]; [| destruct E |].
  - eexists _, [_]. reflexivity.
  - exists a, []. rewrite app_nil_r. now destruct w.
Qed.

End Conversion.

(** ** The retrieval *)

Section Retrieval.

Variable float_repr : pyfloat -> string.
Variable msk_utcoffset : Z -> Z.
Variable system_utcoffset : Z -> Z.
Variable clock : nat -> Z.
Variable client : Client.
Variables latitude longitude : pyfloat.
Variable forecast_days : Z.

Let convert := convert_utc_to_msk_pytz msk_utcoffset system_utcoffset.
Let fetch_try :=
  get_weather_data_try float_repr msk_utcoffset system_utcoffset clock client
    latitude longitude forecast_days.
Let fetch :=
  get_weather_data float_repr msk_utcoffset system_utcoffset clock client
    latitude longitude forecast_days.
Let request := params latitude longitude forecast_days.

Lemma convert_contained s : contained (convert s).
Proof.
  intros w. destruct (convert_returns msk_utcoffset system_utcoffset s w)
    as [r [l H]]. unfold convert. rewrite H. exact I.
Qed.

Lemma convert_grows s : grows (convert s).
Proof.
  intros w. destruct (convert_returns msk_utcoffset system_utcoffset s w)
    as [r [l H]]. unfold convert. rewrite H. eauto.
Qed.

Lemma datetime_now_contained tz : contained (datetime_now clock tz).
Proof. intros w. apply of_seconds_exception_only. Qed.

Lemma datetime_now_grows tz : grows (datetime_now clock tz).
Proof. intros w. exists []. cbn. now rewrite app_nil_r. Qed.

#[local] Hint Resolve convert_contained convert_grows datetime_now_contained
  datetime_now_grows : pipeline.

Lemma fetch_try_grows : grows fetch_try.
Proof.
  unfold fetch_try, get_weather_data_try, weather_api, log,
    get_current_msk_time. fold request. fold convert.
  apply grows_bind; [auto with pipeline | intros _].
  apply grows_bind; [auto with pipeline | intros [|response rest]].
  - auto with pipeline.
  - repeat (apply grows_bind; [auto 6 with pipeline | intros ?]).
    auto with pipeline.
Qed.

(** Whatever [Exception] the [try] block raises, the function returns
    [None] after one more ERROR line. *)
Lemma fetch_caught w cls msg w' :
  fetch_try w = (inl (Exception cls msg), w') ->
  fetch w =
    (ok None,
     mkworld (trace w' ++ [Log ERROR ("Ошибка при получении данных погоды: " +:+ msg)])
       (ticks w')).
Proof.
  intros H. unfold fetch, get_weather_data. fold fetch_try.
  erewrite try_except_caught by exact H. reflexivity.
Qed.

Lemma fetch_passed w r w' : fetch_try w = (ok r, w') -> fetch w = (ok r, w').
Proof.
  intros H. unfold fetch, get_weather_data. fold fetch_try.
  now apply try_except_passed.
Qed.

Ltac dead_run := cbn; try (intros; discriminate).

#[local] Arguments of_seconds : simpl never.
#[local] Arguments fromtimestamp_utc : simpl never.
#[local] Arguments convert_utc_to_msk_pytz : simpl never.
#[local] Arguments current_weather : simpl never.
#[local] Arguments isoformat : simpl never.
#[local] Arguments strftime : simpl never.
#[local] Arguments String.append : simpl never.
#[local] Arguments Z.div : simpl never.
#[local] Arguments Z.modulo : simpl never.
#[local] Arguments Z.add : simpl never.
#[local] Arguments app : simpl never.
#[local] Arguments params : simpl never.
#[local] Arguments url : simpl never.

(** What a normal end of the [try] block tells: [None] comes from an
    empty list of responses only, and a record from a first response
    whose current block was read in full. *)
Lemma fetch_try_ok w r w' :
  fetch_try w = (ok r, w') ->
  match r with
  | None => client url request = ok []
  | Some wd =>
      exists response rest b utc_time_str msk_time_str,
        client url request = ok (response :: rest)
        /\ Current response = Some b
        /\ current_weather utc_time_str msk_time_str b
           = ok (WeatherData.current wd)
  end.
Proof.
  unfold fetch_try, get_weather_data_try, bind, weather_api,
    get_current_msk_time, datetime_now.
  fold request. destruct w as [tr tk]. cbn.
  destruct (client url request) as [[c m|c m]|[|response rest]]; dead_run.
  { intros H. injection H as <- <-. reflexivity. }
  destruct (Current response) as [b|] eqn:B; dead_run.
  destruct (fromtimestamp_utc (Time b)) as [[]|utc_time]; dead_run.
  destruct (convert_utc_to_msk_pytz _ _ _ _) as [[[]|msk_str] w2]; dead_run.
  destruct (of_seconds _ _ _) as [[]|d1]; dead_run.
  destruct (of_seconds _ _ _) as [[]|d2]; dead_run.
  destruct (current_weather _ _ b) as [[]|cur] eqn:C; dead_run.
  intros H. injection H as <- <-. cbn. eauto 8.
Qed.

(** The events a run starts with: the INFO line and the call of the
    client with the parameter set. *)
Lemma fetch_try_starts w :
  exists l,
    trace (snd (fetch_try w))
    = trace w
      ++ [Log INFO ("Запрос погоды для координат: " +:+ float_repr latitude
                    +:+ ", " +:+ float_repr longitude);
          ApiCall url request] ++ l.
Proof.
  unfold fetch_try, get_weather_data_try. fold request.
  set (k := fun responses : list WeatherApiResponse => _).
  assert (G : forall a, grows (k a)).
  { intros [|response rest]; unfold k, log, get_current_msk_time; fold convert.
    - auto with pipeline.
    - repeat (apply grows_bind; [auto 6 with pipeline | intros ?]).
      auto with pipeline. }
  unfold bind, weather_api, bind, log, emit, lift. destruct w as [tr tk]. cbn.
  destruct (client url request) as [e|a]; cbn.
  - exists []. now rewrite <- app_assoc.
  - destruct (G a (mkworld ((tr ++ [Log INFO ("Запрос погоды для координат: "
      +:+ float_repr latitude +:+ ", " +:+ float_repr longitude)])
      ++ [ApiCall url request]) tk)) as [l Hl].
    exists l. rewrite Hl. cbn. now rewrite <- !app_assoc.
Qed.

(** A response read in full, with representable times, gives a
    record. *)
Lemma fetch_success w response rest b (build : string -> string -> CurrentWeather.t) :
  client url request = ok (response :: rest) ->
  Current response = Some b ->
  (forall u m, current_weather u m b = ok (build u m)) ->
  representable (Time b) ->
  representable (clock (ticks w) / 1000000
                 + msk_utcoffset (clock (ticks w) / 1000000)) ->
  representable (clock (S (ticks w)) / 1000000) ->
  exists wd w' u m,
    fetch w = (ok (Some wd), w')
    /\ WeatherData.current wd = build u m
    /\ WeatherData.forecast_days wd = forecast_days
    /\ WeatherData.units wd = units.
Proof.
  intros Hc Hb Hw Ht Hn1 Hn2.
  unfold fetch, get_weather_data, try_except, get_weather_data_try, bind,
    weather_api, get_current_msk_time, datetime_now.
  fold request. destruct w as [tr tk]. cbn in *.
  rewrite Hc. cbn. rewrite Hb. cbn.
  destruct (fromtimestamp_utc_representable _ Ht) as [utc_time ->]. cbn.
  match goal with
  | |- context [convert_utc_to_msk_pytz ?a ?b ?s ?w1] =>
      destruct (convert_returns a b s w1) as [msk_str [l ->]]
  end. cbn.
  match goal with
  | |- context [of_seconds ?t ?us ?off] =>
      destruct (of_seconds_representable t us off Hn1) as [d1 ->]
  end. cbn.
  unfold utc_tz. rewrite Z.add_0_r.
  match goal with
  | |- context [of_seconds ?t ?us ?off] =>
      destruct (of_seconds_representable t us off Hn2) as [d2 ->]
  end. cbn.
  rewrite Hw. cbn. eauto 10.
Qed.

End Retrieval.

(** ** The fourteen slots *)

Lemma rbind_ok_inv {A B} (r : result A) (k : A -> result B) (b : B) :
  rbind r k = ok b -> exists a, r = ok a /\ k a = ok b.
Proof. destruct r as [e|a]; cbn; [discriminate | eauto]. Qed.

Lemma variable_value_in_range b i :
  (i < length (slots b))%nat -> exists v, variable_value b i = ok v.
Proof.
  intros H. unfold variable_value.
  destruct (nth_error (slots b) i) as [v|] eqn:E; [eauto|].
  apply nth_error_None in E. lia.
Qed.

Lemma raises_here {A B} (r : result pyval) (f : pyval -> result A)
    (k : A -> result B) :
  (r = ok PyNone /\ raises_exception (f PyNone)) \/ raises_exception r ->
  raises_exception (rbind (rbind r f) k).
Proof.
  intros [[-> [cls [msg E]]] | [cls [msg ->]]]; cbn; [rewrite E|]; cbn;
    eexists _, _; reflexivity.
Qed.

Lemma raises_later {A B} (r : result pyval) (f : pyval -> result A)
    (k : A -> result B) (v : pyval) :
  r = ok v -> exception_only (f v) -> (forall a, raises_exception (k a)) ->
  raises_exception (rbind (rbind r f) k).
Proof.
  intros -> E K. cbn.
  destruct (f v) as [[cls msg|cls msg]|a]; cbn;
    [eexists _, _; reflexivity | destruct E | apply K].
Qed.

(** One step of the chain of reads: the slot is read and rounded, or the
    chain stops there. *)
Ltac read_step HB HF :=
  first
    [ match goal with
      | |- raises_exception (rbind (rbind (variable_value ?b ?i) ?f) _) =>
          let v := fresh "v" in
          let E := fresh "E" in
          destruct (HB i ltac:(lia)) as [v E];
          apply (raises_later _ _ _ v E);
          [ first [ apply round1_exception_only
                  | apply round0_exception_only
                  | apply int_exception_only ]
          | intros ? ]
      end
    | apply raises_here;
      destruct HF as [HF | HF];
      [ left; split; [exact HF | eexists _, _; reflexivity]
      | right; exact HF ] ].

(** A block with a failing read among the fourteen gives no current
    entry: the construction raises an exception. *)
Lemma fails_at_raises u m b n :
  fails_at b n -> raises_exception (current_weather u m b).
Proof.
  intros (Hn & HB & HF). unfold current_weather. cbv zeta.
  do 14 (destruct n as [|n]; [repeat read_step HB HF|]). lia.
Qed.

Lemma unreadable_block_fails b : unreadable_block b -> exists n, fails_at b n.
Proof.
  intros [[j [Hj N]] | [L R]].
  - exists j. split; [exact Hj|]. split.
    + intros i Hi. apply variable_value_in_range.
      assert (nth_error (slots b) j <> None) as S by congruence.
      apply nth_error_Some in S. lia.
    + left. unfold variable_value. now rewrite N.
  - exists (length (slots b)). split; [exact L|]. split.
    + intros i Hi. now apply variable_value_in_range.
    + right. unfold variable_value.
      now rewrite (proj2 (nth_error_None (slots b) (length (slots b))) (le_n _)).
Qed.

(** Fourteen finite floats are read and rounded field by field. *)
Lemma current_weather_floats u m b qs :
  slots b = map float_slot qs -> length qs = 14%nat ->
  current_weather u m b = ok (rounded_current u m qs).
Proof.
  intros S L.
  do 14 (destruct qs as [|? qs]; [discriminate L|]).
  destruct qs; [|discriminate L].
  unfold current_weather, variable_value. rewrite S. reflexivity.
Qed.

(** ** Responses that cannot be read *)

Section UnreadableResponses.

Variable float_repr : pyfloat -> string.
Variable msk_utcoffset : Z -> Z.
Variable system_utcoffset : Z -> Z.
Variable clock : nat -> Z.
Variable client : Client.
Variables latitude longitude : pyfloat.
Variable forecast_days : Z.

Let fetch_try :=
  get_weather_data_try float_repr msk_utcoffset system_utcoffset clock client
    latitude longitude forecast_days.
Let request := params latitude longitude forecast_days.

#[local] Arguments of_seconds : simpl never.
#[local] Arguments fromtimestamp_utc : simpl never.
#[local] Arguments convert_utc_to_msk_pytz : simpl never.
#[local] Arguments current_weather : simpl never.
#[local] Arguments isoformat : simpl never.
#[local] Arguments strftime : simpl never.
#[local] Arguments String.append : simpl never.
#[local] Arguments Z.div : simpl never.
#[local] Arguments Z.modulo : simpl never.
#[local] Arguments Z.add : simpl never.
#[local] Arguments app : simpl never.
#[local] Arguments params : simpl never.
#[local] Arguments url : simpl never.

Ltac raised := eexists _, _, _; reflexivity.

(** On an unreadable first response the [try] block raises an
    [Exception]: at the read of the time when the block is absent, at
    a conversion of a time, or at the failing read of a slot. *)
Lemma fetch_try_unreadable w response rest :
  client url request = ok (response :: rest) ->
  unreadable response ->
  exists cls msg w1, fetch_try w = (inl (Exception cls msg), w1).
Proof.
  intros Hc U.
  unfold fetch_try, get_weather_data_try, bind, weather_api,
    get_current_msk_time, datetime_now.
  fold request. destruct w as [tr tk]. cbn.
  rewrite Hc. cbn.
  unfold unreadable in U. destruct (Current response) as [b|]; cbn; [|raised].
  pose proof (fromtimestamp_utc_exception_only (Time b)) as E0.
  destruct (fromtimestamp_utc (Time b)) as [[c m|c m]|utc_time]; cbn;
    [raised | destruct E0 |].
  match goal with
  | |- context [convert_utc_to_msk_pytz ?a ?b ?s ?w1] =>
      destruct (convert_returns a b s w1) as [msk_str [l ->]]
  end. cbn.
  match goal with
  | |- context [of_seconds ?t ?us ?off] =>
      pose proof (of_seconds_exception_only t us off) as E1;
      destruct (of_seconds t us off) as [[c m|c m]|d1]
  end; cbn; [raised | destruct E1 |].
  match goal with
  | |- context [of_seconds ?t ?us ?off] =>
      pose proof (of_seconds_exception_only t us off) as E2;
      destruct (of_seconds t us off) as [[c m|c m]|d2]
  end; cbn; [raised | destruct E2 |].
  destruct (unreadable_block_fails b U) as [n F].
  destruct (fails_at_raises (isoformat utc_time) msk_str b n F) as [c [m ->]].
  cbn. raised.
Qed.

End UnreadableResponses.

(** ** The claims on the retrieval *)

Section RetrievalClaims.

Variable float_repr : pyfloat -> string.
Variable msk_utcoffset : Z -> Z.
Variable system_utcoffset : Z -> Z.
Variable clock : nat -> Z.
Variable client : Client.
Variables latitude longitude : pyfloat.
Variable forecast_days : Z.

Let fetch_try :=
  get_weather_data_try float_repr msk_utcoffset system_utcoffset clock client
    latitude longitude forecast_days.
Let fetch :=
  get_weather_data float_repr msk_utcoffset system_utcoffset clock client
    latitude longitude forecast_days.
Let request := params latitude longitude forecast_days.

(** No instance of [Exception] leaves [get_weather_data]. *)
Lemma fetch_raises_no_exception w cls msg :
  fst (fetch w) <> inl (Exception cls msg).
Proof.
  unfold fetch, get_weather_data, try_except. fold fetch_try.
  destruct (fetch_try w) as [[[c m|c m]|r] w1]; cbn; discriminate.
Qed.

Lemma fetch_starts w :
  exists l,
    trace (snd (fetch w))
    = trace w
      ++ [Log INFO ("Запрос погоды для координат: " +:+ float_repr latitude
                    +:+ ", " +:+ float_repr longitude);
          ApiCall url request] ++ l.
Proof.
  destruct (fetch_try_starts float_repr msk_utcoffset system_utcoffset clock
              client latitude longitude forecast_days w) as [l Hl].
  fold fetch_try request in Hl.
  unfold fetch, get_weather_data, try_except. fold fetch_try.
  destruct (fetch_try w) as [[[c m|c m]|r] w1]; cbn in *; eauto.
  exists (l ++ [Log ERROR ("Ошибка при получении данных погоды: " +:+ m)]).
  rewrite Hl. now rewrite <- !app_assoc.
Qed.

(** C1. For every response whose current block holds exactly fourteen
    finite floats (and whose times are representable dates),
    [get_weather_data] returns a record in which temperature, apparent
    temperature, precipitation, rain, showers, snowfall, wind speed and
    wind gusts are the inputs rounded to one decimal, humidity, cloud
    cover, both pressures and wind direction are the inputs rounded to
    an integer, and the weather code is the input truncated, not
    rounded. *)
Theorem get_weather_data_rounds_per_field w response rest b (qs : list Q) :
  client url request = ok (response :: rest) ->
  Current response = Some b ->
  slots b = map float_slot qs ->
  length qs = 14%nat ->
  representable (Time b) ->
  representable (clock (ticks w) / 1000000
                 + msk_utcoffset (clock (ticks w) / 1000000)) ->
  representable (clock (S (ticks w)) / 1000000) ->
  exists wd w' u m,
    fetch w = (ok (Some wd), w')
    /\ WeatherData.current wd = rounded_current u m qs
    /\ let c := WeatherData.current wd in
       let q j := nth j qs (0 # 1)%Q in
       rounded_to_1_decimal (q 0%nat) (CurrentWeather.temperature c)
       /\ rounded_to_integer (q 1%nat) (CurrentWeather.humidity c)
       /\ rounded_to_1_decimal (q 2%nat) (CurrentWeather.apparent_temperature c)
       /\ rounded_to_1_decimal (q 3%nat) (CurrentWeather.precipitation c)
       /\ rounded_to_1_decimal (q 4%nat) (CurrentWeather.rain c)
       /\ rounded_to_1_decimal (q 5%nat) (CurrentWeather.showers c)
       /\ rounded_to_1_decimal (q 6%nat) (CurrentWeather.snowfall c)
       /\ truncated_to_integer (q 7%nat) (CurrentWeather.weather_code c)
       /\ rounded_to_integer (q 8%nat) (CurrentWeather.cloud_cover c)
       /\ rounded_to_integer (q 9%nat) (CurrentWeather.pressure_msl c)
       /\ rounded_to_integer (q 10%nat) (CurrentWeather.surface_pressure c)
       /\ rounded_to_1_decimal (q 11%nat) (CurrentWeather.wind_speed c)
       /\ rounded_to_integer (q 12%nat) (CurrentWeather.wind_direction c)
       /\ rounded_to_1_decimal (q 13%nat) (CurrentWeather.wind_gusts c).
Proof.
  intros Hc Hb Hs Hl Ht Hn1 Hn2.
  destruct (fetch_success float_repr msk_utcoffset system_utcoffset clock
              client latitude longitude forecast_days w response rest b
              (fun u m => rounded_current u m qs) Hc Hb
              (fun u m => current_weather_floats u m b qs Hs Hl) Ht Hn1 Hn2)
    as [wd [w' [u [m [R [C _]]]]]].
  exists wd, w', u, m. split; [exact R|]. split; [exact C|].
  rewrite C. unfold rounded_current. cbn -[float_round1 nth].
  repeat first [ apply float_round1_spec | apply round_half_even_near
               | apply truncate_spec | apply conj ].
Qed.

(** C10. In the same setting the integer-rounded fields take a value
    lying exactly halfway between two integers to the even one: for
    humidity, cloud cover, the two pressures and wind direction, an
    input [n + 1/2] gives [n] when [n] is even and [n + 1] when it is
    odd. *)
Theorem integer_fields_round_half_to_even w response rest b (qs : list Q) :
  client url request = ok (response :: rest) ->
  Current response = Some b ->
  slots b = map float_slot qs ->
  length qs = 14%nat ->
  representable (Time b) ->
  representable (clock (ticks w) / 1000000
                 + msk_utcoffset (clock (ticks w) / 1000000)) ->
  representable (clock (S (ticks w)) / 1000000) ->
  exists wd w',
    fetch w = (ok (Some wd), w')
    /\ let c := WeatherData.current wd in
       let q j := nth j qs (0 # 1)%Q in
       let even_neighbour n := if Z.even n then n else n + 1 in
       forall n : Z,
         ((q 1%nat == inject_Z n + (1 # 2))%Q ->
          CurrentWeather.humidity c = even_neighbour n)
         /\ ((q 8%nat == inject_Z n + (1 # 2))%Q ->
             CurrentWeather.cloud_cover c = even_neighbour n)
         /\ ((q 9%nat == inject_Z n + (1 # 2))%Q ->
             CurrentWeather.pressure_msl c = even_neighbour n)
         /\ ((q 10%nat == inject_Z n + (1 # 2))%Q ->
             CurrentWeather.surface_pressure c = even_neighbour n)
         /\ ((q 12%nat == inject_Z n + (1 # 2))%Q ->
             CurrentWeather.wind_direction c = even_neighbour n).
Proof.
  intros Hc Hb Hs Hl Ht Hn1 Hn2.
  destruct (fetch_success float_repr msk_utcoffset system_utcoffset clock
              client latitude longitude forecast_days w response rest b
              (fun u m => rounded_current u m qs) Hc Hb
              (fun u m => current_weather_floats u m b qs Hs Hl) Ht Hn1 Hn2)
    as [wd [w' [u [m [R [C _]]]]]].
  exists wd, w'. split; [exact R|].
  rewrite C. unfold rounded_current. cbn -[nth]. intros n.
  repeat first [ apply round_half_even_tie | apply conj ].
Qed.

(** C7. For every horizon in [1, 16] the parameter set is built, with
    exactly fourteen current variables, six hourly and eight daily ones,
    the timezone mode "auto" and [past_days] at 0, and it is this set
    that the client is called with, right after the first INFO line. *)
Theorem request_parameters w :
  1 <= forecast_days <= 16 ->
  length (Params.current request) = 14%nat
  /\ length (Params.hourly request) = 6%nat
  /\ length (Params.daily request) = 8%nat
  /\ Params.timezone request = "auto"
  /\ Params.past_days request = 0
  /\ Params.forecast_days request = forecast_days
  /\ exists msg l,
       trace (snd (fetch w))
       = trace w ++ [Log INFO msg; ApiCall url request] ++ l.
Proof.
  intros _. repeat (split; [reflexivity|]).
  destruct (fetch_starts w) as [l Hl]. eauto.
Qed.

(** C2, as the code has it.  A horizon outside [1, 16] is not checked:
    it goes unchanged into the parameter set, the client is called with
    it, and the function does not fail with InvalidParameterError. *)
Theorem forecast_days_not_validated w :
  forecast_days < 1 \/ 16 < forecast_days ->
  Params.forecast_days request = forecast_days
  /\ In (ApiCall url request) (trace (snd (fetch w)))
  /\ ~ fails_with "InvalidParameterError" (fetch w).
Proof.
  intros _. split; [reflexivity|]. split.
  - destruct (fetch_starts w) as [l ->].
    apply in_or_app. right. right. now left.
  - intros [msg H]. exact (fetch_raises_no_exception w _ _ H).
Qed.

(** C3, as the code has it.  When the first response has no current
    block, fewer than fourteen slots, or a slot without a number,
    [get_weather_data] does not fail with MalformedResponseError: no
    exception of any class reaches the caller.  The accessor of a slot
    does not check its index, so what a read past the last slot yields
    is not specified; whenever the response is unreadable - the block is
    absent, a slot among the fourteen holds no number, or the first read
    past the slots raises an exception - the function returns [None]
    after logging an ERROR line. *)
Theorem malformed_response_is_caught w response rest :
  client url request = ok (response :: rest) ->
  malformed response ->
  (forall cls, ~ fails_with cls (fetch w))
  /\ (unreadable response ->
      exists w' l msg,
        fetch w = (ok None, w')
        /\ trace w' = trace w ++ l ++ [Log ERROR msg]).
Proof.
  intros Hc _. split.
  - intros cls [msg H]. exact (fetch_raises_no_exception w _ _ H).
  - intros U.
    destruct (fetch_try_unreadable float_repr msk_utcoffset system_utcoffset
                clock client latitude longitude forecast_days w response rest
                Hc U) as [cls [msg [w1 T]]].
    destruct (fetch_try_grows float_repr msk_utcoffset system_utcoffset
                clock client latitude longitude forecast_days w) as [l G].
    fold fetch_try in T, G. rewrite T in G. cbn in G.
    exists (mkworld (trace w1 ++ [Log ERROR
             ("Ошибка при получении данных погоды: " +:+ msg)]) (ticks w1)), l.
    eexists. split.
    + apply (fetch_caught float_repr msk_utcoffset system_utcoffset clock
               client latitude longitude forecast_days w cls msg w1 T).
    + cbn. rewrite G. now rewrite <- app_assoc.
Qed.

(** C4. Whatever fails between the call of the client and the end of
    the extraction - an empty list of responses, an exception raised by
    the client, or any exception raised in the [try] block -
    [get_weather_data] returns [None], the last line logged is an ERROR,
    and no exception reaches the caller. *)
Theorem failures_give_none w :
  client url request = ok []
  \/ (exists cls msg, client url request = inl (Exception cls msg))
  \/ (exists cls msg, fst (fetch_try w) = inl (Exception cls msg)) ->
  exists w' l msg,
    fetch w = (ok None, w')
    /\ trace w' = trace w ++ l ++ [Log ERROR msg].
Proof.
  assert (Caught : forall cls msg,
             fst (fetch_try w) = inl (Exception cls msg) ->
             exists w' l msg,
               fetch w = (ok None, w')
               /\ trace w' = trace w ++ l ++ [Log ERROR msg]).
  { intros cls msg H.
    destruct (fetch_try_grows float_repr msk_utcoffset system_utcoffset
                clock client latitude longitude forecast_days w) as [l G].
    fold fetch_try in G.
    destruct (fetch_try w) as [r w1] eqn:T. cbn in H, G. subst r.
    eexists _, l, _. split.
    - apply (fetch_caught float_repr msk_utcoffset system_utcoffset clock
               client latitude longitude forecast_days w cls msg w1 T).
    - cbn. rewrite G. now rewrite <- app_assoc. }
  intros [H | [[cls [msg H]] | [cls [msg H]]]].
  - exists (mkworld (trace w ++
              [Log INFO ("Запрос погоды для координат: " +:+ float_repr latitude
                         +:+ ", " +:+ float_repr longitude);
               ApiCall url request] ++
              [Log ERROR "Получен пустой ответ от API"]) (ticks w)).
    eexists _, _. split; [|reflexivity].
    unfold fetch, get_weather_data, try_except, get_weather_data_try, bind,
      weather_api, bind, log, emit, lift, ret. fold request. cbn.
    rewrite H. cbn. now rewrite <- !app_assoc.
  - apply (Caught cls msg).
    unfold fetch_try, get_weather_data_try, bind, weather_api, bind, log,
      emit, lift. fold request. cbn. now rewrite H.
  - exact (Caught cls msg H).
Qed.

(** The empty list of responses: exactly one ERROR line, after the INFO
    line and the call. *)
Lemma empty_response_run w :
  client url request = ok [] ->
  fetch w
  = (ok None,
     mkworld (trace w ++
                [Log INFO ("Запрос погоды для координат: " +:+ float_repr latitude
                           +:+ ", " +:+ float_repr longitude);
                 ApiCall url request;
                 Log ERROR "Получен пустой ответ от API"]) (ticks w)).
Proof.
  intros H.
  unfold fetch, get_weather_data, try_except, get_weather_data_try, bind,
    weather_api, bind, log, emit, lift, ret. fold request. cbn.
  rewrite H. cbn. now rewrite <- !app_assoc.
Qed.

End RetrievalClaims.

(** ** The claims on the time conversion *)

Section ConversionClaims.

Variable msk_utcoffset : Z -> Z.
Variable system_utcoffset : Z -> Z.

Let convert := convert_utc_to_msk_pytz msk_utcoffset system_utcoffset.
Let convert_try := convert_utc_to_msk_pytz_try msk_utcoffset system_utcoffset.

Lemma convert_caught s w cls msg :
  convert_try s w = (inl (Exception cls msg), w) ->
  convert s w = (ok s, mkworld (trace w ++ [conversion_error msg]) (ticks w)).
Proof.
  intros H. unfold convert, convert_utc_to_msk_pytz. fold convert_try.
  erewrite try_except_caught by exact H. reflexivity.
Qed.

(** C6. Whenever the conversion fails - whatever is raised while the
    string is parsed or moved to the zone - the converter returns the
    string it was given, unchanged, after logging an ERROR line; and on
    no string at all does it raise, so that the construction of the
    record goes on. *)
Theorem convert_failure_returns_input s w e w1 :
  convert_try s w = (inl e, w1) ->
  (exists msg,
     convert s w
     = (ok s, mkworld (trace w ++ [conversion_error msg]) (ticks w)))
  /\ (forall s' w', exists r w'', convert s' w' = (ok r, w'')).
Proof.
  intros H. split.
  - destruct (convert_try_pure msk_utcoffset system_utcoffset s) as [r [E P]].
    fold convert_try in P. rewrite P in H. injection H as -> <-.
    destruct e as [cls msg|cls msg]; [|destruct E].
    exists msg. apply (convert_caught s w cls msg). apply P.
  - intros s' w'.
    destruct (convert_returns msk_utcoffset system_utcoffset s' w')
      as [r [l R]]. eauto.
Qed.

(** A string without [+] and [Z] that parses to a naive datetime is
    read as UTC: the result is the civil time of Moscow at that UTC
    instant. *)
Lemma convert_naive_as_utc s w dt :
  contains "+" s = false -> contains "Z" s = false ->
  fromisoformat s = ok dt -> utcoffset dt = None ->
  convert_try s w
  = (rbind (rbind (of_seconds (to_seconds dt) (microsecond dt) (Some 0))
              (fun _ =>
                 of_seconds (to_seconds dt + msk_utcoffset (to_seconds dt))
                   (microsecond dt) (Some (msk_utcoffset (to_seconds dt)))))
       (fun msk_dt => ok (strftime msk_dt)), w).
Proof.
  intros P Hz F O.
  unfold convert_try, convert_utc_to_msk_pytz_try, bind, lift, ret.
  rewrite P, Hz, F. cbn -[of_seconds to_seconds strftime].
  unfold localize_utc. rewrite O. cbn -[of_seconds to_seconds strftime].
  unfold astimezone.
  cbn -[of_seconds strftime Z.mul Z.add Z.sub days_from_civil].
  unfold to_seconds. cbn [year month day hour minute second].
  rewrite Z.sub_0_r.
  destruct (of_seconds _ _ (Some 0)); cbn -[of_seconds strftime]; [reflexivity|].
  destruct (of_seconds _ _ _); reflexivity.
Qed.

(** A string with [Z] or [+] that parses, once [Z] is replaced, to an
    aware datetime is read with its offset. *)
Lemma convert_with_offset s w dt off :
  contains "+" s || contains "Z" s = true ->
  fromisoformat (replace "Z" "+00:00" s) = ok dt -> utcoffset dt = Some off ->
  convert_try s w
  = (rbind (astimezone system_utcoffset msk_utcoffset dt)
       (fun msk_dt => ok (strftime msk_dt)), w).
Proof.
  intros P F O.
  unfold convert_try, convert_utc_to_msk_pytz_try, bind, lift, ret.
  rewrite P, F. cbn -[astimezone strftime]. rewrite O.
  cbn -[astimezone strftime].
  destruct (astimezone _ _ dt); reflexivity.
Qed.

(** A string with an offset but without [+] and [Z] - a negative
    offset - is not converted: [localize] refuses the aware datetime and
    the string comes back as it was. *)
Lemma convert_offset_without_plus s w dt off :
  contains "+" s = false -> contains "Z" s = false ->
  fromisoformat s = ok dt -> utcoffset dt = Some off ->
  convert s w
  = (ok s,
     mkworld (trace w ++ [conversion_error "Not naive datetime (tzinfo is already set)"])
       (ticks w)).
Proof.
  intros P Hz F O. eapply convert_caught.
  unfold convert_try, convert_utc_to_msk_pytz_try, bind, lift, ret.
  rewrite P, Hz, F. cbn. unfold localize_utc. rewrite O. reflexivity.
Qed.

(** C5, the part that fails.  The instant 2024-01-15T12:00:00-05:00 is
    17:00 UTC, 20:00 in Moscow; the converter returns the input
    unchanged, with an ERROR line. *)
Theorem convert_negative_offset_unchanged w :
  convert "2024-01-15T12:00:00-05:00" w
  = (ok "2024-01-15T12:00:00-05:00",
     mkworld (trace w ++ [conversion_error "Not naive datetime (tzinfo is already set)"])
       (ticks w)).
Proof.
  apply (convert_offset_without_plus _ w
           (mkdatetime 2024 1 15 12 0 0 0 (Some (-18000))) (-18000));
    reflexivity.
Qed.

(** The example of the specification: noon UTC is three in the
    afternoon in Moscow, when the zone stands at three hours. *)
Lemma convert_noon_utc w :
  msk_utcoffset 1705320000 = 10800 ->
  convert "2024-01-15T12:00:00Z" w = (ok "2024-01-15 15:00:00", w).
Proof.
  intros H. unfold convert, convert_utc_to_msk_pytz.
  apply try_except_passed. fold convert_try.
  rewrite (convert_with_offset _ w (mkdatetime 2024 1 15 12 0 0 0 (Some 0)) 0)
    by reflexivity.
  unfold astimezone. cbn [utcoffset microsecond].
  change (to_seconds (mkdatetime 2024 1 15 12 0 0 0 (Some 0)) - 0)
    with 1705320000.
  rewrite H. reflexivity.
Qed.

Lemma convert_positive_offset w :
  msk_utcoffset 1705302000 = 10800 ->
  convert "2024-01-15T12:00:00+05:00" w = (ok "2024-01-15 10:00:00", w).
Proof.
  intros H. unfold convert, convert_utc_to_msk_pytz.
  apply try_except_passed. fold convert_try.
  rewrite (convert_with_offset _ w
             (mkdatetime 2024 1 15 12 0 0 0 (Some 18000)) 18000)
    by reflexivity.
  unfold astimezone. cbn [utcoffset microsecond].
  change (to_seconds (mkdatetime 2024 1 15 12 0 0 0 (Some 18000)) - 18000)
    with 1705302000.
  rewrite H. reflexivity.
Qed.

Lemma convert_no_offset w :
  msk_utcoffset 1705320000 = 10800 ->
  convert "2024-01-15T12:00:00" w = (ok "2024-01-15 15:00:00", w).
Proof.
  intros H. unfold convert, convert_utc_to_msk_pytz.
  apply try_except_passed. fold convert_try.
  rewrite (convert_naive_as_utc _ w (mkdatetime 2024 1 15 12 0 0 0 None))
    by reflexivity.
  change (to_seconds (mkdatetime 2024 1 15 12 0 0 0 None)) with 1705320000.
  rewrite H. reflexivity.
Qed.

End ConversionClaims.

(** ** The catalog and the summary *)

Lemma weather_codes_keys (code : Z) :
  is_Some (weather_codes !! code) <-> In code known_codes.
Proof.
  rewrite <- list_elem_of_In, <- not_eq_None_Some.
  unfold weather_codes. rewrite <- not_elem_of_list_to_map. cbn [fmap list_fmap fst].
  split; [apply dec_stable | tauto].
Qed.

(** C8, as the code has it.  The catalog is a lookup by exact key over
    the twenty-eight codes of the list: a code has a description exactly
    when it is one of them; 61 gives a description of rain; any other code
    gives the fallback text, which ends with the code written out, so
    that 12345 gives a text containing 12345. *)
Theorem weather_codes_catalog :
  length known_codes = 28%nat
  /\ size weather_codes = 28%nat
  /\ (forall code, is_Some (weather_codes !! code) <-> In code known_codes)
  /\ (forall code s, weather_codes !! code = Some s ->
        weather_description weather_codes code = s)
  /\ weather_description weather_codes 61 = "🌧️ Дождь слабый"
  /\ infix_of "Дождь" (weather_description weather_codes 61) = true
  /\ (forall code, ~ In code known_codes ->
        weather_description weather_codes code = "Код погоды: " +:+ str_int code)
  /\ infix_of "12345" (weather_description weather_codes 12345) = true.
Proof.
  split; [reflexivity|]. split; [reflexivity|].
  split; [exact weather_codes_keys|].
  split; [intros code s H; unfold weather_description; now rewrite H|].
  split; [reflexivity|]. split; [reflexivity|].
  split; [|reflexivity].
  intros code H. unfold weather_description.
  destruct (weather_codes !! code) as [s|] eqn:E; [|reflexivity].
  destruct H. apply weather_codes_keys. rewrite E. eauto.
Qed.

(** The table of [test.py] holds twenty-one of these codes. *)
Lemma weather_codes_test_size :
  size weather_codes_test = 21%nat
  /\ weather_description weather_codes_test 61 = "Дождь слабый"
  /\ weather_description weather_codes_test 12345 = "Код погоды: 12345".
Proof. repeat split; reflexivity. Qed.

(** C9. The summary is a function of the record: whatever the state of
    the log, a rendering appends the same nine INFO lines, in the same
    order - header, observation time, time of the request, temperature
    with apparent temperature, humidity, weather description, wind speed
    with gusts, pressure, precipitation - reads no clock and raises
    nothing; rendering the record again appends the very same lines. *)
Theorem summary_is_deterministic (float_repr : pyfloat -> string)
    (wd : WeatherData.t) (w : world) :
  let render := log_weather_summary float_repr (Some wd) in
  let lines := map (Log INFO) (summary_lines float_repr wd) in
  render w = (ok tt, mkworld (trace w ++ lines) (ticks w))
  /\ render (snd (render w))
     = (ok tt, mkworld ((trace w ++ lines) ++ lines) (ticks w))
  /\ forall w2, exists w2',
       render w2 = (ok tt, w2') /\ trace w2' = trace w2 ++ lines.
Proof.
  assert (R : forall w0,
             log_weather_summary float_repr (Some wd) w0
             = (ok tt,
                mkworld (trace w0 ++ map (Log INFO) (summary_lines float_repr wd))
                  (ticks w0))).
  { intros [tr tk]. unfold log_weather_summary, bind, log, emit, summary_lines.
    cbn -[String.append weather_description str str_int app].
    now rewrite <- !app_assoc. }
  cbv zeta. split; [apply R|]. split.
  - rewrite (R w). cbn [snd]. now rewrite R.
  - intros w2. eexists. split; [apply R | reflexivity].
Qed.

(** ** The program at work *)

Example round0_62_5 : round0 (PyFloat (Finite (625 # 10))) = ok 62.
Proof. reflexivity. Qed.

Example round0_63_5 : round0 (PyFloat (Finite (635 # 10))) = ok 64.
Proof. reflexivity. Qed.

Example round0_negative_half : round0 (PyFloat (Finite (-5 # 10))) = ok 0.
Proof. reflexivity. Qed.

Example int_negative : int (PyFloat (Finite (-619 # 10))) = ok (-61).
Proof. reflexivity. Qed.

(** A run on fourteen readings, 18.456 degrees first. *)
Example demo_run_current :
  exists wd w',
    Demo.run (Demo.client (Demo.floats Demo.readings)) 3 = (ok (Some wd), w')
    /\ WeatherData.current wd
       = CurrentWeather.mk "2024-01-15T12:00:00+00:00" "2024-01-15 15:00:00"
           (PyFloat (Finite (185 # 10))) 63 (PyFloat (Finite (170 # 10)))
           (PyFloat NegZero) (PyFloat (Finite (0 # 10)))
           (PyFloat (Finite (0 # 10))) (PyFloat (Finite (0 # 10))) 61 62 1014
           1000 (PyFloat (Finite (2 # 10))) 360 (PyFloat (Finite (635 # 10)))
    /\ WeatherData.timestamp wd = "2024-01-15 15:00:00"
    /\ WeatherData.timestamp_utc wd = "2024-01-15T12:00:00.123457+00:00".
Proof. eexists _, _. split; [vm_compute; reflexivity|]. repeat split. Qed.

(** NaN in a slot rounded to one decimal goes into the record; NaN in a
    slot rounded to an integer leaves no record. *)
Example demo_run_nan_temperature :
  exists wd w',
    Demo.run (Demo.client (PyFloat NaN :: tl (Demo.floats Demo.readings))) 3
    = (ok (Some wd), w')
    /\ CurrentWeather.temperature (WeatherData.current wd) = PyFloat NaN.
Proof. eexists _, _. split; [vm_compute; reflexivity|]. reflexivity. Qed.

Example demo_run_nan_humidity :
  fst (Demo.run (Demo.client (PyFloat (Finite (18456 # 1000)) :: PyFloat NaN
                              :: tl (tl (Demo.floats Demo.readings)))) 3)
  = ok None.
Proof. vm_compute. reflexivity. Qed.

(** Witness of C1: the demo run, where 18.456 becomes 18.5, 63.4 becomes
    63 and 61.9 becomes 61. *)
Lemma get_weather_data_rounds_per_field_witness :
  exists wd w',
    Demo.run (Demo.client (Demo.floats Demo.readings)) 3 = (ok (Some wd), w')
    /\ CurrentWeather.temperature (WeatherData.current wd)
       = PyFloat (Finite (185 # 10))
    /\ CurrentWeather.humidity (WeatherData.current wd) = 63
    /\ CurrentWeather.weather_code (WeatherData.current wd) = 61.
Proof.
  destruct (get_weather_data_rounds_per_field Demo.float_repr
              Demo.msk_utcoffset Demo.system_utcoffset Demo.clock
              (Demo.client (Demo.floats Demo.readings))
              (Finite (5036 # 100)) (Finite (3636 # 100)) 3 Demo.w0
              (Demo.response (Demo.floats Demo.readings)) []
              (Demo.block (Demo.floats Demo.readings)) Demo.readings)
    as [wd [w' [u [m [R [C _]]]]]];
    try reflexivity; try (unfold representable; vm_compute; split; discriminate).
  exists wd, w'. split; [exact R|]. rewrite C. repeat split.
Defined.

(** Witness of C10: in the demo run 62.5 becomes 62, 1013.5 becomes 1014,
    999.5 becomes 1000 and 359.5 becomes 360. *)
Lemma integer_fields_round_half_to_even_witness :
  exists wd w',
    Demo.run (Demo.client (Demo.floats Demo.readings)) 3 = (ok (Some wd), w')
    /\ CurrentWeather.cloud_cover (WeatherData.current wd) = 62
    /\ CurrentWeather.pressure_msl (WeatherData.current wd) = 1014
    /\ CurrentWeather.surface_pressure (WeatherData.current wd) = 1000
    /\ CurrentWeather.wind_direction (WeatherData.current wd) = 360.
Proof.
  destruct (integer_fields_round_half_to_even Demo.float_repr
              Demo.msk_utcoffset Demo.system_utcoffset Demo.clock
              (Demo.client (Demo.floats Demo.readings))
              (Finite (5036 # 100)) (Finite (3636 # 100)) 3 Demo.w0
              (Demo.response (Demo.floats Demo.readings)) []
              (Demo.block (Demo.floats Demo.readings)) Demo.readings)
    as [wd [w' [R T]]];
    try reflexivity; try (unfold representable; vm_compute; split; discriminate).
  exists wd, w'. split; [exact R|]. cbv zeta in T.
  split; [apply (T 62); reflexivity|].
  split; [apply (T 1013); reflexivity|].
  split; [apply (T 999); reflexivity|].
  apply (T 359); reflexivity.
Defined.

(** Witness of C7: the horizon of three days of [main]. *)
Lemma request_parameters_witness :
  1 <= 3 <= 16
  /\ length (Params.current (params (Finite (5036 # 100)) (Finite (3636 # 100)) 3))
     = 14%nat
  /\ exists msg l,
       trace (snd (Demo.run (Demo.client (Demo.floats Demo.readings)) 3))
       = trace Demo.w0
         ++ [Log INFO msg;
             ApiCall url (params (Finite (5036 # 100)) (Finite (3636 # 100)) 3)]
         ++ l.
Proof.
  assert (H : 1 <= 3 <= 16) by lia.
  split; [exact H|].
  destruct (request_parameters Demo.float_repr Demo.msk_utcoffset
              Demo.system_utcoffset Demo.clock
              (Demo.client (Demo.floats Demo.readings))
              (Finite (5036 # 100)) (Finite (3636 # 100)) 3 Demo.w0 H)
    as [C [_ [_ [_ [_ [_ T]]]]]].
  split; [exact C | exact T].
Defined.

(** C2 fails on the code: with a horizon of seventeen days the run is
    not refused, and the client is called. *)
Lemma forecast_days_17_not_rejected :
  ~ rejected_before_network "InvalidParameterError"
      (Demo.run (Demo.client (Demo.floats Demo.readings)) 17).
Proof.
  intros [_ N]. apply N.
  exists url, (params (Finite (5036 # 100)) (Finite (3636 # 100)) 17).
  vm_compute. right. left. reflexivity.
Qed.

(** Witness of C2 as the code has it: seventeen days. *)
Lemma forecast_days_not_validated_witness :
  16 < 17
  /\ In (ApiCall url (params (Finite (5036 # 100)) (Finite (3636 # 100)) 17))
       (trace (snd (Demo.run (Demo.client (Demo.floats Demo.readings)) 17)))
  /\ ~ fails_with "InvalidParameterError"
         (Demo.run (Demo.client (Demo.floats Demo.readings)) 17).
Proof.
  assert (H : 17 < 1 \/ 16 < 17) by lia.
  split; [lia|].
  destruct (forecast_days_not_validated Demo.float_repr Demo.msk_utcoffset
              Demo.system_utcoffset Demo.clock
              (Demo.client (Demo.floats Demo.readings))
              (Finite (5036 # 100)) (Finite (3636 # 100)) 17 Demo.w0 H)
    as [_ [I F]].
  split; [exact I | exact F].
Defined.

(** C3 fails on the code: with thirteen slots, and a decoder that raises
    on the read of the fourteenth, the run does not fail with
    MalformedResponseError, it returns [None]. *)
Lemma thirteen_slots_not_raised :
  ~ fails_with "MalformedResponseError"
      (Demo.run (Demo.client (Demo.floats (firstn 13 Demo.readings))) 3).
Proof. intros [msg H]. vm_compute in H. discriminate H. Qed.

Example thirteen_slots_run :
  exists l,
    Demo.run (Demo.client (Demo.floats (firstn 13 Demo.readings))) 3
    = (ok None,
       mkworld (l ++ [Log ERROR
          "Ошибка при получении данных погоды: bad number 4294967338 for type uint32"])
         2).
Proof. eexists [_; _]. vm_compute. reflexivity. Qed.

(** With thirteen slots and a decoder that finds a number past them, a
    record is built, and the number found there is its last field. *)
Example thirteen_slots_stray_run :
  exists wd w',
    Demo.run (Demo.stray_client (Demo.floats (firstn 13 Demo.readings))
                (Finite (7 # 2))) 3
    = (ok (Some wd), w')
    /\ CurrentWeather.wind_gusts (WeatherData.current wd)
       = PyFloat (Finite (35 # 10)).
Proof. eexists _, _. vm_compute. split; reflexivity. Qed.

(** Witness of C3 as the code has it: thirteen slots, and a decoder that
    raises on the read of the fourteenth. *)
Lemma malformed_response_is_caught_witness :
  malformed (Demo.response (Demo.floats (firstn 13 Demo.readings)))
  /\ unreadable (Demo.response (Demo.floats (firstn 13 Demo.readings)))
  /\ (forall cls,
        ~ fails_with cls
            (Demo.run (Demo.client (Demo.floats (firstn 13 Demo.readings))) 3))
  /\ exists w' l msg,
       Demo.run (Demo.client (Demo.floats (firstn 13 Demo.readings))) 3
       = (ok None, w')
       /\ trace w' = trace Demo.w0 ++ l ++ [Log ERROR msg].
Proof.
  assert (M : malformed (Demo.response (Demo.floats (firstn 13 Demo.readings)))).
  { left. vm_compute. lia. }
  assert (U : unreadable (Demo.response (Demo.floats (firstn 13 Demo.readings)))).
  { right. split; [vm_compute; lia | eexists _, _; reflexivity]. }
  split; [exact M|]. split; [exact U|].
  destruct (malformed_response_is_caught Demo.float_repr Demo.msk_utcoffset
              Demo.system_utcoffset Demo.clock
              (Demo.client (Demo.floats (firstn 13 Demo.readings)))
              (Finite (5036 # 100)) (Finite (3636 # 100)) 3 Demo.w0
              (Demo.response (Demo.floats (firstn 13 Demo.readings))) []
              eq_refl M) as [N C].
  split; [exact N | exact (C U)].
Defined.

(** Witness of C4: a client that returns an empty list. *)
Lemma failures_give_none_witness :
  exists w' l msg,
    Demo.run (fun _ _ => ok []) 3 = (ok None, w')
    /\ trace w' = trace Demo.w0 ++ l ++ [Log ERROR msg].
Proof.
  exact (failures_give_none Demo.float_repr Demo.msk_utcoffset
           Demo.system_utcoffset Demo.clock (fun _ _ => ok [])
           (Finite (5036 # 100)) (Finite (3636 # 100)) 3 Demo.w0
           (or_introl eq_refl)).
Defined.

(** A client that raises: the message of the exception is logged. *)
Example transport_error_run :
  exists l,
    Demo.run (fun _ _ => raise "ConnectionError" "network is unreachable") 3
    = (ok None,
       mkworld (l ++ [Log ERROR
          "Ошибка при получении данных погоды: network is unreachable"]) 0).
Proof. eexists [_; _]. vm_compute. reflexivity. Qed.

(** What is not an [Exception] is not intercepted. *)
Example keyboard_interrupt_run :
  fst (Demo.run (fun _ _ => inl (BaseException "KeyboardInterrupt" "")) 3)
  = inl (BaseException "KeyboardInterrupt" "").
Proof. vm_compute. reflexivity. Qed.

(** Witness of C6: a string that is no date. *)
Lemma convert_failure_returns_input_witness :
  exists msg,
    convert_utc_to_msk_pytz Demo.msk_utcoffset Demo.system_utcoffset
      "not a date" Demo.w0
    = (ok "not a date", mkworld [conversion_error msg] 0).
Proof.
  destruct (convert_failure_returns_input Demo.msk_utcoffset
              Demo.system_utcoffset "not a date" Demo.w0
              (Exception "ValueError" "Invalid isoformat string: 'not a date'")
              Demo.w0 eq_refl) as [[msg H] _].
  exists msg. exact H.
Defined.

(** C8 fails on the code by one: the table has twenty-eight keys, not
    twenty-seven. *)
Lemma weather_codes_not_27 : size weather_codes <> 27%nat.
Proof. vm_compute. discriminate. Qed.
